(** * Image-Compressor-Service: the CSV validator, the image transformer and
    the background pipeline of [main.py], embedded in Rocq.

  Python [str] values are sequences of Unicode code points, modelled as
  lists of [N]; [bytes] are lists of [Byte.byte].  The S3 buckets and the
  DynamoDB table are finite maps.  Everything the program reaches through a
  library (the csv module, requests, PIL, boto3, uuid, the Unicode
  database) is a field of the [Platform] class below. *)

From Stdlib Require Import ZArith NArith Lia Bool Ascii String List.
From stdpp Require Import base option list gmap.
Import ListNotations.

(* ===================================================================== *)
(** ** Python strings *)
(* ===================================================================== *)

Abbreviation str := (list N).
Abbreviation bytes := (list Byte.byte).

(** The code point of an ASCII character, and a [str] from a literal. *)
Definition chr (a : ascii) : N := N_of_ascii a.
Definition u (s : string) : str := List.map N_of_ascii (list_ascii_of_string s).

Module PyStr.

(** [Py_UNICODE_ISSPACE]: the test behind [str.strip()] and behind the
    [\s] class of [re] on [str] patterns. *)
Definition isspace (c : N) : bool :=
  ((9 <=? c) && (c <=? 13) || (28 <=? c) && (c <=? 31) || (c =? 32)
   || (c =? 133) || (c =? 160) || (c =? 5760)
   || (8192 <=? c) && (c <=? 8202)
   || (c =? 8232) || (c =? 8233) || (c =? 8239) || (c =? 8287)
   || (c =? 12288))%N.

Fixpoint lstrip (s : str) : str :=
  match s with
  | c :: t => if isspace c then lstrip t else s
  | [] => []
  end.

Definition rstrip (s : str) : str := rev (lstrip (rev s)).

(** [s.strip()] *)
Definition strip (s : str) : str := rstrip (lstrip s).

(** [s.split(sep)] for a one-character separator: never the empty list. *)
Fixpoint split (sep : N) (s : str) : list str :=
  match s with
  | [] => [[]]
  | c :: t =>
      if (c =? sep)%N then [] :: split sep t
      else match split sep t with
           | h :: r => (c :: h) :: r
           | [] => [[c]]
           end
  end.

(** [s.isdigit()]: false on the empty string; the per-character test is
    the Unicode database's. *)
Definition isdigit (unicode_isdigit : N -> bool) (s : str) : bool :=
  match s with
  | [] => false
  | _ => forallb unicode_isdigit s
  end.

End PyStr.

(* ===================================================================== *)
(** ** The regular expressions of [re], as far as [main.py] uses them *)
(* ===================================================================== *)

Module Re.

Inductive set_item : Type :=
| SetLit (c : N)            (* a character written in the set *)
| SetRange (lo hi : N)      (* lo-hi *)
| SetSpace.                 (* \s *)

Inductive regex : Type :=
| Empty                                    (* the empty pattern *)
| AtBeginning                              (* ^ *)
| AtEnd                                    (* $ *)
| Literal (c : N)
| AnyChar                                  (* . *)
| CharSet (negate : bool) (items : list set_item)   (* [...] and [^...] *)
| Seq (r1 r2 : regex)
| Branch (r1 r2 : regex)                   (* r1|r2 *)
| Repeat (r : regex).                      (* r* *)

Definition ascii_upper (c : N) : N :=
  if ((97 <=? c) && (c <=? 122))%N then (c - 32)%N else c.

(** The code points beyond [c] and its ASCII capital that [re.IGNORECASE]
    lets match the pattern character [c]: dotted capital I and dotless i
    for [i], long s for [s], the Kelvin sign for [k]. *)
Definition ignorecase_extra (c : N) : list N :=
  if (c =? 105)%N then [304; 305]%N
  else if (c =? 115)%N then [383]%N
  else if (c =? 107)%N then [8490]%N
  else [].

(** Does the subject character [ch] match the pattern character [c]?
    (For pattern characters that are lower-case ASCII letters or caseless
    ASCII characters: [main.py] writes no others.) *)
Definition literal_matches (ignorecase : bool) (c ch : N) : bool :=
  (ch =? c)%N
  || ignorecase && ((ch =? ascii_upper c)%N
                    || existsb (N.eqb ch) (ignorecase_extra c)).

Definition item_matches (ignorecase : bool) (it : set_item) (ch : N) : bool :=
  match it with
  | SetLit c => literal_matches ignorecase c ch
  | SetRange lo hi => ((lo <=? ch) && (ch <=? hi))%N
  | SetSpace => PyStr.isspace ch
  end.

Definition set_matches (ignorecase negate : bool) (items : list set_item)
    (ch : N) : bool :=
  xorb negate (existsb (fun it => item_matches ignorecase it ch) items).

(** One-character patterns share this shape. *)
Definition one_char (p : N -> bool) (rest : str) : list str :=
  match rest with
  | ch :: t => if p ch then [t] else []
  | [] => []
  end.

(** Zero or more rounds of [step].  A round that consumes nothing leads
    nowhere new, so as many rounds as [rest] has characters are enough. *)
Fixpoint star (step : str -> list str) (fuel : nat) (rest : str)
    : list str :=
  rest ::
  match fuel with
  | O => []
  | S fuel' => flat_map (star step fuel') (step rest)
  end.

(** [run ic n r rest]: every remainder that matching [r] at the front of
    [rest] can leave, where [rest] is a suffix of a subject of length [n].
    The engine of [re] backtracks through the same alternatives; only
    whether some alternative succeeds is observed by [main.py]. *)
Fixpoint run (ignorecase : bool) (n : nat) (r : regex) (rest : str)
    : list str :=
  match r with
  | Empty => [rest]
  | AtBeginning => if Nat.eqb (List.length rest) n then [rest] else []
  | AtEnd =>
      match rest with
      | [] => [rest]
      | [c] => if (c =? 10)%N then [rest] else []
      | _ => []
      end
  | Literal c => one_char (literal_matches ignorecase c) rest
  | AnyChar => one_char (fun ch => negb (ch =? 10)%N) rest
  | CharSet negate items => one_char (set_matches ignorecase negate items) rest
  | Seq r1 r2 =>
      flat_map (run ignorecase n r2) (run ignorecase n r1 rest)
  | Branch r1 r2 => run ignorecase n r1 rest ++ run ignorecase n r2 rest
  | Repeat r0 => star (run ignorecase n r0) (List.length rest) rest
  end.

(** [re.match(pattern, s) is not None] *)
Definition re_match (ignorecase : bool) (pattern : regex) (s : str) : bool :=
  match run ignorecase (List.length s) pattern s with
  | [] => false
  | _ :: _ => true
  end.

(** A run of pattern characters, and a sequence of sub-patterns. *)
Definition lits (s : string) : regex :=
  fold_right (fun c r => Seq (Literal c) r) Empty (u s).
Definition seqs (rs : list regex) : regex := fold_right Seq Empty rs.

End Re.
Import Re.

(* ===================================================================== *)
(** ** The two field checks of [main.py] *)
(* ===================================================================== *)

(** [url_pattern = re.compile(
      r'^(http|https)://[^\s/$.?#].[^\s]*\.(jpg|jpeg|png|gif)$',
      re.IGNORECASE)] *)
Definition url_pattern : regex :=
  seqs [ AtBeginning;
         Branch (lits "http") (lits "https");
         lits "://";
         CharSet true [SetSpace; SetLit (chr "/"); SetLit (chr "$");
                       SetLit (chr "."); SetLit (chr "?"); SetLit (chr "#")];
         AnyChar;
         Repeat (CharSet true [SetSpace]);
         Literal (chr ".");
         Branch (lits "jpg")
           (Branch (lits "jpeg") (Branch (lits "png") (lits "gif")));
         AtEnd ].

Definition is_valid_image_url (url : str) : bool :=
  re_match true url_pattern url.

(** [pattern = r'^[a-zA-Z0-9 ]*$'] *)
Definition alphanumeric_pattern : regex :=
  seqs [ AtBeginning;
         Repeat (CharSet false [SetRange (chr "a") (chr "z");
                                SetRange (chr "A") (chr "Z");
                                SetRange (chr "0") (chr "9");
                                SetLit (chr " ")]);
         AtEnd ].

Definition is_alphanumeric_with_spaces (s : str) : bool :=
  re_match false alphanumeric_pattern s.

(** [all(is_valid_image_url(url.strip()) for url in image_urls.split(','))],
    the test behind the "Invalid Image Urls" error of [validate_csv]. *)
Definition all_valid_image_urls (image_urls : str) : bool :=
  forallb (fun url => is_valid_image_url (PyStr.strip url))
          (PyStr.split (chr ",") image_urls).

(* ===================================================================== *)
(** ** Exceptions, results and HTTP responses *)
(* ===================================================================== *)

(** The exceptions the program meets.  All three are subclasses of
    [Exception]; [Error] stands for every other library or interpreter
    exception and carries its [str(e)]. *)
Inductive exn : Type :=
| HTTPException (status_code : Z) (detail : str)
| NoSuchKey (key : str)
| Error (message : str).

Inductive result (A : Type) : Type :=
| Ok (a : A)
| Raise (e : exn).
Arguments Ok {A} a.
Arguments Raise {A} e.

(** What a library call comes back with: a value, or one of the library's
    own exceptions, of which the program only ever uses [str(e)]. *)
Inductive answer (A : Type) : Type :=
| Returns (a : A)
| Fails (message : str).
Arguments Returns {A} a.
Arguments Fails {A} message.

Definition of_answer {A : Type} (x : answer A) : result A :=
  match x with
  | Returns a => Ok a
  | Fails message => Raise (Error message)
  end.

(** The status line FastAPI answers with: 200 for a returned value, the
    exception's own code for an [HTTPException], 500 for anything else. *)
Definition http_status {A : Type} (r : result A) : Z :=
  match r with
  | Ok _ => 200
  | Raise (HTTPException code _) => code
  | Raise _ => 500
  end.

(* ===================================================================== *)
(** ** Data *)
(* ===================================================================== *)

(** [class Item(BaseModel)] *)
Record Item : Type := mkItem { requestId : str; status : str }.

(** The multipart part FastAPI hands to [upload_csv]. *)
Module Starlette.
Record UploadFile : Type := mkUploadFile {
  content_type : option str;
  filename : str;
  file : bytes
}.
End Starlette.
Export Starlette.

(** [StreamingResponse(csv_stream, media_type=..., headers=...)] *)
Record streaming_response : Type := mkStreaming {
  stream : bytes;
  media_type : str;
  response_headers : list (str * str)
}.

Record s3_object : Type := mkObject {
  Body : bytes;
  Metadata : list (str * option str)
}.

(** [requests.Response] *)
Record response : Type := mkResponse {
  response_status : Z;
  content : bytes
}.

(** A decoded [PIL.Image]. *)
Record image : Type := mkImage {
  format : str;
  pixels : bytes
}.

(** The keyword arguments of one [image.save(output_io, ...)] call. *)
Record save_args : Type := mkSave {
  save_format : str;
  quality : option Z;
  compress_level : option Z
}.

(** A field handed to [csv.writer]: a string, or the Python list that
    [process_file] appends as such. *)
Inductive cell : Type :=
| Str (s : str)
| StrList (l : list str).

(** What a [csv.reader] yields over a text: the rows, then either the end
    of the input or the [csv.Error] it stops with. *)
Record parsed : Type := mkParsed {
  rows : list (list str);
  tail_error : option str
}.

#[global] Instance byte_eq_dec : EqDecision Byte.byte := Byte.byte_eq_dec.
#[global] Instance Item_eq_dec : EqDecision Item.
Proof. solve_decision. Defined.
#[global] Instance exn_eq_dec : EqDecision exn.
Proof. solve_decision. Defined.

(* ===================================================================== *)
(** ** Configuration and platform *)
(* ===================================================================== *)

(** The environment variables read at import time. *)
Class Config : Type := {
  AWS_REGION : str;
  AWS_BUCKET_NAME : str;
  AWS_IMAGE_BUCKET : str;
  env_VALID_HEADERS : str;
  MAX_FILE_SIZE : Z;
  IMAGE_QUALITY : Z
}.

(** [VALID_HEADERS = os.getenv("VALID_HEADERS").split(",")] *)
Definition VALID_HEADERS `{Config} : list str :=
  PyStr.split (chr ",") env_VALID_HEADERS.

(** The libraries and the services behind them.  A call to the outside is
    answered according to the number of calls made before it ([nat]), so
    that any sequence of outages and answers is some platform. *)
Class Platform : Type := {
  (* the interpreter *)
  unicode_isdigit : N -> bool;
  str_lower : str -> str;
  repr_list : list str -> str;                (* an f-string field {row} *)
  utf8_decode : bytes -> answer str;          (* bytes.decode('utf-8') *)
  (* csv *)
  csv_reader : str -> parsed;
  csv_writerows : list (list cell) -> answer bytes;
  (* starlette, botocore, requests *)
  http_exception_str : Z -> str -> str;       (* str(e), e an HTTPException *)
  no_such_key_str : str -> str;
  http_error_str : Z -> str -> str;           (* of raise_for_status *)
  (* PIL *)
  Image_open : bytes -> answer image;
  Image_save : image -> save_args -> answer bytes;
  (* the outside *)
  dynamodb_fault : nat -> option str;
  s3_fault : nat -> option str;
  requests_get : nat -> str -> answer response;
  uuid4 : nat -> str
}.

(** [str(e)] *)
Definition str_exn `{Platform} (e : exn) : str :=
  match e with
  | HTTPException code detail => http_exception_str code detail
  | NoSuchKey key => no_such_key_str key
  | Error message => message
  end.

(* ===================================================================== *)
(** ** The state of the services, and computations over it *)
(* ===================================================================== *)

Record world : Type := mkWorld {
  table : gmap str Item;                  (* DynamoDB, keyed by requestId *)
  s3 : gmap (str * str) s3_object;        (* S3, keyed by bucket and key *)
  background : list str;                  (* process_file tasks added *)
  clock : nat                             (* calls made to the outside *)
}.

Definition M (A : Type) : Type := world -> result A * world.

#[global] Instance M_ret : MRet M := fun A a w => (Ok a, w).
#[global] Instance M_bind : MBind M := fun A B k m w =>
  match m w with
  | (Ok a, w') => k a w'
  | (Raise e, w') => (Raise e, w')
  end.

Definition raise {A : Type} (e : exn) : M A := fun w => (Raise e, w).

(** A pure step that may raise. *)
Definition lift {A : Type} (r : result A) : M A := fun w => (r, w).

(** [try: body / except Exception as e: handler(e)] *)
Definition try_except {A : Type} (body : M A) (handler : exn -> M A) : M A :=
  fun w =>
    match body w with
    | (Ok a, w') => (Ok a, w')
    | (Raise e, w') => handler e w'
    end.

(** One call to the outside: its index, and the clock moves on. *)
Definition tick : M nat := fun w =>
  (Ok (clock w),
   mkWorld (table w) (s3 w) (background w) (S (clock w))).

(** [[f(x) for x in xs]] with an effectful [f]: left to right, stopping at
    the first exception. *)
Fixpoint for_each {A B : Type} (f : A -> M B) (xs : list A) : M (list B) :=
  match xs with
  | [] => mret []
  | x :: rest => y ← f x; ys ← for_each f rest; mret (y :: ys)
  end.

(* ===================================================================== *)
(** ** boto3, requests and uuid *)
(* ===================================================================== *)

Section Program.
Context `{Config} `{Platform}.

(** [table.put_item(Item=...)] *)
Definition put_item (item : Item) : M unit :=
  t ← tick;
  match dynamodb_fault t with
  | Some message => raise (Error message)
  | None => fun w =>
      (Ok tt, mkWorld (<[requestId item := item]> (table w)) (s3 w)
                      (background w) (clock w))
  end.

(** [table.get_item(Key=...).get('Item')] *)
Definition get_item (key : str) : M (option Item) :=
  t ← tick;
  match dynamodb_fault t with
  | Some message => raise (Error message)
  | None => fun w => (Ok (table w !! key), w)
  end.

(** [s3_client.upload_fileobj(fileobj, bucket, key, ExtraArgs=...)] *)
Definition upload_fileobj (fileobj : bytes) (bucket key : str)
    (metadata : list (str * option str)) : M unit :=
  t ← tick;
  match s3_fault t with
  | Some message => raise (Error message)
  | None => fun w =>
      (Ok tt, mkWorld (table w)
                      (<[(bucket, key) := mkObject fileobj metadata]> (s3 w))
                      (background w) (clock w))
  end.

(** [s3_client.get_object(Bucket=..., Key=...)['Body'].read()] *)
Definition get_object (bucket key : str) : M bytes :=
  t ← tick;
  match s3_fault t with
  | Some message => raise (Error message)
  | None => fun w =>
      match s3 w !! (bucket, key) with
      | Some object => (Ok (Body object), w)
      | None => (Raise (NoSuchKey key), w)
      end
  end.

(** [requests.get(url)] *)
Definition get (url : str) : M response :=
  t ← tick; lift (of_answer (requests_get t url)).

(** [response.raise_for_status()] *)
Definition raise_for_status (url : str) (r : response) : M unit :=
  if (400 <=? response_status r)%Z && (response_status r <? 600)%Z
  then raise (Error (http_error_str (response_status r) url))
  else mret tt.

(** [str(uuid.uuid4()).replace("-", "")] *)
Definition uuid4_hex : M str :=
  t ← tick;
  mret (List.filter (fun c => negb (c =? chr "-")%N) (uuid4 t)).

(** [background_tasks.add_task(process_file, requestId)] *)
Definition add_task (requestId : str) : M unit := fun w =>
  (Ok tt, mkWorld (table w) (s3 w) (background w ++ [requestId]) (clock w)).

(* ===================================================================== *)
(** ** [main.py] *)
(* ===================================================================== *)

Definition write_to_db (item : Item) : M unit :=
  try_except (put_item item)
    (fun e => raise (HTTPException 500
       (u "Error occurred while writing to DB: " ++ str_exn e))).

(** A stored item is a non-empty dict, so [if item:] only tells a found
    item from [None].  The [HTTPException] of the [else] branch is raised
    inside the [try]. *)
Definition read_from_db (requestId : str) : M Item :=
  try_except
    (item ← get_item requestId;
     match item with
     | Some item => mret item
     | None => raise (HTTPException 404
         (u "requestId: " ++ requestId ++ u " not found!"))
     end)
    (fun e => raise (HTTPException 500
       (u "Exception occurred: " ++ str_exn e))).

(** [upload_to_s3(file, requestId, replace)]: with [replace] the file is the
    buffer itself, without it the [UploadFile]. *)
Definition upload_to_s3 (replace : bool)
    (file : if replace then bytes else UploadFile) (requestId : str)
    : M unit :=
  let file_key := requestId ++ u ".csv" in
  try_except
    (match replace return (if replace then bytes else UploadFile) -> M unit
     with
     | true => fun file =>
         upload_fileobj file AWS_BUCKET_NAME file_key
           [(u "Content-Type", Some (u "text/csv"))]
     | false => fun upload =>
         upload_fileobj (Starlette.file upload) AWS_BUCKET_NAME file_key
           [(u "Content-Type", content_type upload);
            (u "x-amz-meta-original-filename", Some (filename upload))]
     end file)
    (fun e => raise (HTTPException 500
       (u "Error occurred while writing file to S3: " ++ str_exn e))).

Definition upload_image_to_s3 (file : bytes) (image_extension : str)
    : M str :=
  hex ← uuid4_hex;
  let file_key := hex ++ u "." ++ image_extension in
  try_except
    (upload_fileobj file AWS_IMAGE_BUCKET file_key
       [(u "Content-Type", Some (u "image/" ++ image_extension))];;
     mret (u "https://" ++ AWS_IMAGE_BUCKET ++ u ".s3." ++ AWS_REGION
             ++ u ".amazonaws.com/" ++ file_key))
    (fun e => raise (HTTPException 500
       (u "Error occurred while uploading image to S3: " ++ str_exn e))).

Definition read_from_s3 (requestId : str) : M bytes :=
  get_object AWS_BUCKET_NAME (requestId ++ u ".csv").

(** The [if]/[elif]/[else] of [compress_image]: the arguments of the one
    [image.save] call made for an image of the given format. *)
Definition save_arguments (image_format : str) : save_args :=
  if bool_decide (image_format ∈ [u "JPEG"; u "JPG"]) then
    mkSave (u "JPEG") (Some IMAGE_QUALITY) None
  else if bool_decide (image_format = u "PNG") then
    mkSave (u "PNG") None (Some (IMAGE_QUALITY / 10)%Z)
  else
    mkSave image_format None None.

Definition compress_image (url : str) : M str :=
  response ← get url;
  raise_for_status url response;;
  image ← lift (of_answer (Image_open (content response)));
  output_io ← lift (of_answer
                      (Image_save image (save_arguments (format image))));
  upload_image_to_s3 output_io (str_lower (format image)).

(** The body of the [for row in csv_reader] loop of [process_file]. *)
Definition process_row (row : list str) : M (list cell) :=
  match row !! 2%nat with
  | None => raise (Error (u "list index out of range"))
  | Some field =>
      let image_urls := PyStr.split (chr ",") field in
      uploaded_urls ← for_each compress_image image_urls;
      mret (List.map Str row ++ [StrList uploaded_urls])
  end.

(** The statements of the [try] block up to [csv_buffer.seek(0)]: the
    document to upload. *)
Definition build_csv (requestId : str) : M bytes :=
  write_to_db (mkItem requestId (u "Processing in progress!"));;
  file_content ← read_from_s3 requestId;
  text ← lift (of_answer (utf8_decode file_content));
  let csv := csv_reader text in
  match rows csv with
  | [] =>
      (* next(csv_reader): the reader's error, or StopIteration *)
      raise (Error (default [] (tail_error csv)))
  | headers :: data =>
      let headers := headers ++ [u "Output Image Urls"] in
      let new_csv := [[StrList headers]] in
      processed ← for_each process_row data;
      match tail_error csv with
      | Some message => raise (Error message)
      | None => lift (of_answer (csv_writerows (new_csv ++ processed)))
      end
  end.

(** The [try] block through [upload_to_s3(csv_buffer, requestId,
    replace=True)]. *)
Definition write_result (requestId : str) : M unit :=
  csv_buffer ← build_csv requestId;
  upload_to_s3 true csv_buffer requestId.

(** The whole [try] block. *)
Definition process_body (requestId : str) : M unit :=
  write_result requestId;;
  write_to_db (mkItem requestId (u "Processing completed successfully!")).

Definition process_file (requestId : str) : M unit :=
  try_except (process_body requestId)
    (fun e =>
       write_to_db (mkItem requestId
         (u "Processing failed due to " ++ str_exn e ++ u "!"))).

(** The body of the [for row in csv_reader] loop of [validate_csv]. *)
Definition validate_row (row : list str) : result unit :=
  if (List.length row <? 3)%nat then
    Raise (HTTPException 400
             (u "Row has insufficient columns: " ++ repr_list row))
  else
    match row with
    | [sno; product_name; image_urls] =>
        if negb (PyStr.isdigit unicode_isdigit sno) then
          Raise (HTTPException 400
                   (u "Invalid S.No. (not a number): " ++ sno))
        else if negb (is_alphanumeric_with_spaces product_name) then
          Raise (HTTPException 400
                   (u "Invalid product name (not alphanumeric): "
                      ++ product_name ++ u " at S.No.: " ++ sno))
        else if negb (all_valid_image_urls image_urls) then
          Raise (HTTPException 400
                   (u "Invalid Image Urls in list: " ++ image_urls
                      ++ u " at S.No.: " ++ sno))
        else Ok tt
    | _ =>
        (* sno, product_name, image_urls = row *)
        Raise (Error (u "too many values to unpack (expected 3)"))
    end.

Fixpoint validate_rows (data : list (list str)) : result unit :=
  match data with
  | [] => Ok tt
  | row :: rest =>
      match validate_row row with
      | Ok _ => validate_rows rest
      | Raise e => Raise e
      end
  end.

(** Both readers run over the same decoded text, so the second yields what
    the first counted. *)
Definition validate_csv (file_content : bytes) : result unit :=
  match utf8_decode file_content with
  | Fails message => Raise (Error message)
  | Returns text =>
      let csv := csv_reader text in
      match tail_error csv with
      | Some message => Raise (Error message)
      | None =>
          let row_count := List.length (rows csv) in
          if (row_count <=? 1)%nat then
            Raise (HTTPException 400 (u "CSV file is empty"))
          else
            match rows csv with
            | [] => Raise (Error [])
            | headers :: data =>
                if bool_decide (headers ≠ VALID_HEADERS) then
                  Raise (HTTPException 400
                    (u "CSV file headers are invalid. Allowed headers are "
                       ++ repr_list VALID_HEADERS))
                else validate_rows data
            end
      end
  end.

(** [POST /upload-csv].  The file pointer is at the start whenever the
    content is read: [upload_csv] rewinds it after measuring the size and
    [validate_csv] rewinds it before returning. *)
Definition upload_csv (file : UploadFile) : M (str * str) :=
  if bool_decide (content_type file ≠ Some (u "text/csv")) then
    raise (HTTPException 400 (u "Only CSV files are allowed"))
  else if (MAX_FILE_SIZE <? Z.of_nat (List.length (Starlette.file file)))%Z
  then raise (HTTPException 400 (u "File size exceeds the 2 MB limit!"))
  else
    match validate_csv (Starlette.file file) with
    | Raise (HTTPException code detail) => raise (HTTPException code detail)
    | Raise e =>
        raise (HTTPException 500
                 (u "CSV parsing failed with exception: " ++ str_exn e))
    | Ok _ =>
        requestId ← uuid4_hex;
        upload_to_s3 false file requestId;;
        write_to_db (mkItem requestId (u "Processing Pending"));;
        add_task requestId;;
        mret (u "File uploaded successfully!", requestId)
    end.

(** [GET /status/{requestId}] *)
Definition get_status (requestId : str) : M Item := read_from_db requestId.

(** [GET /get-csv/{requestId}] *)
Definition get_csv (requestId : str) : M streaming_response :=
  try_except
    (let s3_key := requestId ++ u ".csv" in
     csv_content ← get_object AWS_BUCKET_NAME s3_key;
     mret (mkStreaming csv_content (u "text/csv")
             [(u "Content-Disposition",
               u "attachment; filename="
                 ++ List.last (PyStr.split (chr "/") s3_key) [])]))
    (fun e =>
       match e with
       | NoSuchKey _ =>
           raise (HTTPException 404
                    (u "File: " ++ requestId ++ u ".csv not found in S3"))
       | _ => raise (HTTPException 500 (str_exn e))
       end).

End Program.

(* ===================================================================== *)
(** ** Notions the statements below use *)
(* ===================================================================== *)

(** [w] and [s] are equal up to case, as [re.IGNORECASE] sees it. *)
Definition ci_equal (w s : str) : Prop :=
  Forall2 (fun c ch => literal_matches true c ch = true) w s.

(** What [url_pattern] accepts, spelled out: the scheme, [://], a first
    character outside whitespace and [/$.?#], any one character but a line
    feed, characters that are not whitespace, a dot and the extension. *)
Definition image_url_shape (url : str) : Prop :=
  exists (scheme : str) (c1 c2 : N) (mid ext : str),
    url = scheme ++ u "://" ++ c1 :: c2 :: mid ++ chr "." :: ext
    /\ (ci_equal (u "http") scheme \/ ci_equal (u "https") scheme)
    /\ PyStr.isspace c1 = false
    /\ ~ In c1 (u "/$.?#")
    /\ c2 <> 10%N
    /\ Forall (fun c => PyStr.isspace c = false) mid
    /\ (ci_equal (u "jpg") ext \/ ci_equal (u "jpeg") ext
        \/ ci_equal (u "png") ext \/ ci_equal (u "gif") ext).

(** What is left after the extension, for [$] to accept. *)
Definition line_end (tail : str) : Prop := tail = [] \/ tail = [10%N].

Fixpoint strip_prefix (p s : str) : option str :=
  match p, s with
  | [] , _ => Some s
  | c :: p', d :: s' => if (c =? d)%N then strip_prefix p' s' else None
  | _ :: _, [] => None
  end.

Definition ascii_lower (c : N) : N :=
  if ((65 <=? c) && (c <=? 90))%N then (c + 32)%N else c.

Definition ends_with_nocase (s ext : str) : bool :=
  match strip_prefix (rev ext) (rev (List.map ascii_lower s)) with
  | Some _ => true
  | None => false
  end.

(** The test on one entry in the words of the specification: scheme [http]
    or [https], then a non-empty host/path without whitespace, ending in
    [.jpg], [.jpeg], [.png] or [.gif] whatever the case. *)
Definition spec_image_url (url : str) : bool :=
  existsb
    (fun scheme =>
       match strip_prefix (scheme ++ u "://") url with
       | Some host_path =>
           negb (bool_decide (host_path = []))
           && forallb (fun c => negb (PyStr.isspace c)) host_path
           && existsb (ends_with_nocase host_path)
                [u ".jpg"; u ".jpeg"; u ".png"; u ".gif"]
       | None => false
       end)
    [u "http"; u "https"].

(** The errors of [validate_csv] and [upload_csv] that the statements
    name. *)
Definition invalid_image_urls_error (image_urls sno : str) : exn :=
  HTTPException 400
    (u "Invalid Image Urls in list: " ++ image_urls ++ u " at S.No.: " ++ sno).

Definition header_mismatch_error `{Config} `{Platform} : exn :=
  HTTPException 400
    (u "CSV file headers are invalid. Allowed headers are "
       ++ repr_list VALID_HEADERS).

Definition size_limit_error : exn :=
  HTTPException 400 (u "File size exceeds the 2 MB limit!").


(** The three statuses [process_file] writes. *)
Definition in_progress (requestId : str) : Item :=
  mkItem requestId (u "Processing in progress!").
Definition completed (requestId : str) : Item :=
  mkItem requestId (u "Processing completed successfully!").
Definition failed `{Platform} (requestId : str) (e : exn) : Item :=
  mkItem requestId (u "Processing failed due to " ++ str_exn e ++ u "!").

(** The key of a job's CSV document. *)
Definition csv_key `{Config} (requestId : str) : str * str :=
  (AWS_BUCKET_NAME, requestId ++ u ".csv").

(** [out] is [row] with the list of the URLs the transformer returned for
    the entries of its third field, one for one and in their order, as one
    more cell. *)
Definition enriched `{Config} `{Platform} (row : list str) (out : list cell)
    : Prop :=
  exists (field : str) (uploaded_urls : list str),
    row !! 2%nat = Some field
    /\ out = List.map Str row ++ [StrList uploaded_urls]
    /\ Forall2 (fun url new => exists w1 w2,
                  compress_image url w1 = (Ok new, w2))
               (PyStr.split (chr ",") field) uploaded_urls.

(** The world after one call to the outside that changed nothing else. *)
Definition ticked (w : world) : world :=
  mkWorld (table w) (s3 w) (background w) (S (clock w)).

(** A character of the class [[a-zA-Z0-9 ]]. *)
Definition alphanumeric_char (c : N) : bool :=
  ((97 <=? c) && (c <=? 122) || (65 <=? c) && (c <=? 90)
   || (48 <=? c) && (c <=? 57) || (c =? 32))%N.

(** A data row that passes every check of [validate_csv]. *)
Definition valid_row `{Platform} (row : list str) : Prop :=
  exists sno product_name image_urls,
    row = [sno; product_name; image_urls]
    /\ PyStr.isdigit unicode_isdigit sno = true
    /\ is_alphanumeric_with_spaces product_name = true
    /\ all_valid_image_urls image_urls = true.

(** The object [upload_to_s3] stores for an upload. *)
Definition uploaded_object (f : UploadFile) : s3_object :=
  mkObject (file f)
    [(u "Content-Type", content_type f);
     (u "x-amz-meta-original-filename", Some (filename f))].

(** The response of [get_csv] over the bytes of a document. *)
Definition csv_response (requestId : str) (body : bytes)
    : streaming_response :=
  mkStreaming body (u "text/csv")
    [(u "Content-Disposition",
      u "attachment; filename="
        ++ List.last (PyStr.split (chr "/") (requestId ++ u ".csv")) [])].

(** All that a run for the job [requestId] may touch: the job's own record,
    the job's own document and the image bucket.  Everything else, the task
    list included, is the same in both worlds, and the count of calls has
    not gone back. *)
Definition within_job `{Config} (requestId : str) (w w' : world) : Prop :=
  (forall key, key <> requestId -> table w' !! key = table w !! key)
  /\ (forall bucket key,
        bucket <> AWS_IMAGE_BUCKET -> (bucket, key) <> csv_key requestId ->
        s3 w' !! (bucket, key) = s3 w !! (bucket, key))
  /\ background w' = background w
  /\ (clock w <= clock w')%nat.

(** The identifier [upload_csv] gives to an upload arriving in [w]. *)
Definition next_request_id `{Platform} (w : world) : str :=
  List.filter (fun c => negb (c =? chr "-")%N) (uuid4 (clock w)).

(** The record of a job just created. *)
Definition pending (requestId : str) : Item :=
  mkItem requestId (u "Processing Pending").

(** [m] relates the world it starts in to the world it ends in by [R],
    whatever it returns; and the same when it raises. *)
Definition preserves {A : Type} (R : relation world) (m : M A) : Prop :=
  forall w r w', m w = (r, w') -> R w w'.

(** The objects of the CSV bucket are the same in both worlds. *)
Definition same_documents `{Config} (w w' : world) : Prop :=
  forall key, s3 w' !! (AWS_BUCKET_NAME, key) = s3 w !! (AWS_BUCKET_NAME, key).

(** The jobs table and the buckets are the same in both worlds. *)
Definition same_stores (w w' : world) : Prop :=
  table w' = table w /\ s3 w' = s3 w.

(* ===================================================================== *)
(** ** An in-memory platform, to run the program on concrete inputs *)
(* ===================================================================== *)

Module Fake.

Definition b (s : string) : bytes := list_byte_of_string s.

Definition join (sep : str) (parts : list str) : str :=
  match parts with
  | [] => []
  | p :: rest => p ++ flat_map (fun q => sep ++ q) rest
  end.

Definition isdigit (c : N) : bool := ((48 <=? c) && (c <=? 57))%N.

Definition lower (s : str) : str := List.map ascii_lower s.

(** ['a', 'b'], for strings without quotes or backslashes. *)
Definition repr (l : list str) : str :=
  u "[" ++ join (u ", ") (List.map (fun s => u "'" ++ s ++ u "'") l) ++ u "]".

(** UTF-8 over ASCII bytes; anything else is refused. *)
Definition decode (content : bytes) : answer str :=
  if forallb (fun x => (Byte.to_N x <? 128)%N) content
  then Returns (List.map Byte.to_N content)
  else Fails (u "'utf-8' codec can't decode").

Definition encode (s : str) : bytes :=
  List.map (fun c => default Byte.x3f (Byte.of_N c)) s.

(** [csv.reader] over texts without quotes or carriage returns: one row a
    line, a blank line an empty row, no row after the last line feed. *)
Definition reader (text : str) : parsed :=
  let lines := PyStr.split 10%N text in
  let lines := match rev lines with
               | [] :: front => rev front
               | _ => lines
               end in
  mkParsed
    (List.map (fun line => match line with
                           | [] => []
                           | _ => PyStr.split (chr ",") line
                           end) lines)
    None.

Definition needs_quotes (field : str) : bool :=
  existsb (fun c => (c =? 44)%N || (c =? 34)%N || (c =? 13)%N || (c =? 10)%N)
          field.

Definition quote (field : str) : str :=
  if needs_quotes field
  then 34%N :: flat_map (fun c => if (c =? 34)%N then [34; 34]%N else [c]) field
         ++ [34%N]
  else field.

Definition render (c : cell) : str :=
  match c with
  | Str s => quote s
  | StrList l => quote (repr l)
  end.

(** [csv.writer(...).writerows], minimal quoting, CRLF line ends. *)
Definition writerows (document : list (list cell)) : answer bytes :=
  Returns (encode (flat_map (fun row => join (u ",") (List.map render row)
                                     ++ [13; 10]%N) document)).

Definition digit (n : nat) : N := (48 + N.of_nat (n mod 10))%N.

Definition decimal (z : Z) : str :=
  let n := Z.to_nat z in
  if (n <? 10)%nat then [digit n]
  else if (n <? 100)%nat then [digit (n / 10); digit n]
  else [digit (n / 100); digit (n / 10); digit n].

(** The n-th identifier handed out. *)
Definition uuid (t : nat) : str :=
  u "00000000-0000-4000-8000-0000000000" ++ [digit (t / 10); digit t].

Definition jpeg_file : bytes := [Byte.xff; Byte.xd8; Byte.xff; Byte.xe0].
Definition png_file : bytes := [Byte.x89; Byte.x50; Byte.x4e; Byte.x47].
Definition gif_file : bytes := b "GIF89a".

(** A decoder that knows three signatures. *)
Definition open (content : bytes) : answer image :=
  if bool_decide (firstn 2 content = firstn 2 jpeg_file)
  then Returns (mkImage (u "JPEG") content)
  else if bool_decide (firstn 4 content = png_file)
  then Returns (mkImage (u "PNG") content)
  else if bool_decide (firstn 4 content = b "GIF8")
  then Returns (mkImage (u "GIF") content)
  else Fails (u "cannot identify image file").

Definition save (img : image) (args : save_args) : answer bytes :=
  Returns (encode (save_format args) ++ pixels img).

(** A web of pages that never changes; an unknown address does not
    connect. *)
Definition fetch (web : list (str * response)) (url : str)
    : answer response :=
  match List.find (fun page => bool_decide (page.1 = url)) web with
  | Some page => Returns page.2
  | None => Fails (u "Connection refused")
  end.

Definition platform (web : list (str * response))
    (dynamodb_faults s3_faults : nat -> option str) : Platform := {|
  unicode_isdigit := isdigit;
  str_lower := lower;
  repr_list := repr;
  utf8_decode := decode;
  csv_reader := reader;
  csv_writerows := writerows;
  http_exception_str := fun code detail => decimal code ++ u ": " ++ detail;
  no_such_key_str := fun key => u "The specified key does not exist.";
  http_error_str := fun code url =>
    decimal code ++ u " Error for url: " ++ url;
  Image_open := open;
  Image_save := save;
  dynamodb_fault := dynamodb_faults;
  s3_fault := s3_faults;
  requests_get := fun _ => fetch web;
  uuid4 := uuid
|}.

Definition config (max_file_size : Z) : Config := {|
  AWS_REGION := u "eu-west-1";
  AWS_BUCKET_NAME := u "csv-files";
  AWS_IMAGE_BUCKET := u "compressed-images";
  env_VALID_HEADERS := u "sno,product_name,image_urls";
  MAX_FILE_SIZE := max_file_size;
  IMAGE_QUALITY := 50
|}.

Definition never : nat -> option str := fun _ => None.
Definition at_call (n : nat) (message : string) : nat -> option str :=
  fun t => if (t =? n)%nat then Some (u message) else None.
Definition from_call (n : nat) (message : string) : nat -> option str :=
  fun t => if (n <=? t)%nat then Some (u message) else None.

Definition web : list (str * response) :=
  [(u "http://example.com/a.jpg", mkResponse 200 jpeg_file);
   (u "http://example.com/b.png", mkResponse 200 png_file);
   (u "http://example.com/c.gif", mkResponse 200 gif_file);
   (u "http://example.com/gone.jpg", mkResponse 404 [])].

Definition start : world := mkWorld ∅ ∅ [] 0.

Definition csv_upload (content : string) : UploadFile :=
  mkUploadFile (Some (u "text/csv")) (u "products.csv") (b content).

Definition LF : string := String (ascii_of_nat 10) EmptyString.

(** The upload of the scenario of the specification. *)
Definition scenario : UploadFile :=
  csv_upload ("sno,product_name,image_urls" ++ LF
              ++ "1,Widget A,http://example.com/a.jpg" ++ LF).

Definition header_line : string := "sno,product_name,image_urls" ++ LF.

(** The configuration and the platforms of the runs below. *)
Definition usual : Config := config 2097152.
Definition quiet : Platform := platform web never never.
Definition late : Platform :=
  platform web (at_call 9 "ProvisionedThroughputExceededException") never.
Definition down : Platform :=
  platform web (from_call 3 "ServiceUnavailable") never.

(** The identifier of the first upload, and the world it leaves. *)
Definition first_id : str := u "00000000000040008000000000000000".
Definition after_upload (f : UploadFile) : world :=
  (@upload_csv usual quiet f start).2.

(** A valid upload whose image is not served. *)
Definition unreachable : UploadFile :=
  csv_upload (header_line
              ++ "1,Widget A,http://example.com/missing.jpg" ++ LF).

(** Uploads that validation refuses. *)
Definition header_only : UploadFile := csv_upload ("a,b,c" ++ LF).
Definition wrong_header : UploadFile :=
  csv_upload ("a,b,c" ++ LF ++ "1,Widget A,http://example.com/a.jpg" ++ LF).

(** A limit that the scenario upload meets exactly, and the same upload
    with one byte more. *)
Definition exact_fit : Config :=
  config (Z.of_nat (List.length (file scenario))).
Definition one_more : UploadFile :=
  mkUploadFile (content_type scenario) (filename scenario)
               (file scenario ++ b LF).

(** The jobs table refuses the write of the Pending record. *)
Definition refusing : Platform :=
  platform web (at_call 2 "ProvisionedThroughputExceededException") never.

(** A world whose CSV bucket holds one document, under the first
    identifier. *)
Definition with_document (body : bytes) : world :=
  mkWorld ∅ (<[@csv_key usual first_id := mkObject body []]> ∅) [] 0.

(** A row of two images, the second of which is not served. *)
Definition two_images : list str :=
  [u "1"; u "Widget A";
   u "http://example.com/a.jpg,http://example.com/missing.jpg"].

End Fake.

(* ===================================================================== *)
(** * Theorems *)
(* ===================================================================== *)

(** ** What the matcher computes *)

Module ReFacts.

Lemma in_one_char (p : N -> bool) (s t : str) :
  In t (one_char p s) <-> exists ch, s = ch :: t /\ p ch = true.
Proof.
  destruct s as [|ch s']; simpl.
  - split; [tauto | intros (c & Hc & _); discriminate].
  - destruct (p ch) eqn:Hp; simpl.
    + split.
      * intros [<- | []]. exists ch. auto.
      * intros (c & Hc & _). injection Hc as _ ->. auto.
    + split; [tauto | intros (c & Hc & Hpc); injection Hc as <- _; congruence].
Qed.

Lemma in_run_Seq ic n r1 r2 (s t : str) :
  In t (run ic n (Seq r1 r2) s)
  <-> exists m, In m (run ic n r1 s) /\ In t (run ic n r2 m).
Proof. simpl. apply in_flat_map. Qed.

Lemma in_run_Branch ic n r1 r2 (s t : str) :
  In t (run ic n (Branch r1 r2) s)
  <-> In t (run ic n r1 s) \/ In t (run ic n r2 s).
Proof. simpl. apply in_app_iff. Qed.

Lemma in_run_Empty ic n (s t : str) : In t (run ic n Empty s) <-> t = s.
Proof. simpl. split; [intros [H | []]; auto | auto]. Qed.

Lemma in_run_AtBeginning ic n (s t : str) :
  In t (run ic n AtBeginning s) <-> t = s /\ List.length s = n.
Proof.
  simpl. destruct (Nat.eqb_spec (List.length s) n); simpl.
  - split; [intros [H | []]; auto | intros [-> _]; auto].
  - split; [tauto | intros [_ H]; contradiction].
Qed.

Lemma in_run_AtEnd ic n (s t : str) :
  In t (run ic n AtEnd s) <-> t = s /\ (s = [] \/ s = [10%N]).
Proof.
  simpl. destruct s as [|c [|d s']]; simpl.
  - split; [intros [H | []]; auto | intros [-> _]; auto].
  - destruct (N.eqb_spec c 10); simpl.
    + subst c. split; [intros [H | []]; auto | intros [-> _]; auto].
    + split; [tauto | intros [_ [H | H]]; [discriminate | congruence]].
  - split; [tauto | intros [_ [H | H]]; discriminate].
Qed.

Lemma in_run_Literal ic n c (s t : str) :
  In t (run ic n (Literal c) s)
  <-> exists ch, s = ch :: t /\ literal_matches ic c ch = true.
Proof. apply in_one_char. Qed.

Lemma in_run_AnyChar ic n (s t : str) :
  In t (run ic n AnyChar s) <-> exists ch, s = ch :: t /\ ch <> 10%N.
Proof.
  simpl. rewrite in_one_char. split; intros (ch & -> & Hc); exists ch;
    (split; [reflexivity |]).
  - intros ->. discriminate.
  - destruct (N.eqb_spec ch 10); [contradiction | reflexivity].
Qed.

Lemma in_run_CharSet ic n negate items (s t : str) :
  In t (run ic n (CharSet negate items) s)
  <-> exists ch, s = ch :: t /\ set_matches ic negate items ch = true.
Proof. apply in_one_char. Qed.

(** A run of pattern characters matches, one for one, a prefix. *)
Lemma in_run_literals ic n (w : str) (s t : str) :
  In t (run ic n (fold_right (fun c r => Seq (Literal c) r) Empty w) s)
  <-> exists p, s = p ++ t
        /\ Forall2 (fun c ch => literal_matches ic c ch = true) w p.
Proof.
  revert s. induction w as [|c w IH]; intros s.
  - rewrite in_run_Empty. split.
    + intros ->. exists []. split; [reflexivity | constructor].
    + intros (p & -> & Hp). inversion Hp. reflexivity.
  - change (fold_right _ _ (c :: w))
      with (Seq (Literal c) (fold_right (fun c r => Seq (Literal c) r) Empty w)).
    rewrite in_run_Seq. split.
    + intros (m & Hm & Ht). apply in_run_Literal in Hm as (ch & -> & Hch).
      apply IH in Ht as (p & -> & Hp). exists (ch :: p). split; [reflexivity |].
      constructor; assumption.
    + intros (p & -> & Hp). inversion Hp as [|? ch ? p' Hch Hp' ]; subst.
      exists (p' ++ t). split.
      * apply in_run_Literal. exists ch. auto.
      * apply IH. exists p'. auto.
Qed.

(** Rounds of a one-character pattern eat a prefix of matching characters,
    at most [fuel] of them. *)
Lemma in_star_one_char (p : N -> bool) (fuel : nat) (s t : str) :
  In t (star (one_char p) fuel s)
  <-> exists pre, s = pre ++ t /\ Forall (fun ch => p ch = true) pre
        /\ (List.length pre <= fuel)%nat.
Proof.
  revert s. induction fuel as [|fuel IH]; intros s; simpl.
  - split.
    + intros [<- | []]. exists []. repeat split; [constructor | simpl; lia].
    + intros (pre & -> & _ & Hlen). destruct pre; [auto | simpl in Hlen; lia].
  - rewrite in_flat_map. split.
    + intros [<- | (m & Hm & Ht)].
      * exists []. repeat split; [constructor | simpl; lia].
      * apply in_one_char in Hm as (ch & -> & Hch).
        apply IH in Ht as (pre & -> & Hpre & Hlen).
        exists (ch :: pre). repeat split; [constructor; auto | simpl; lia].
    + intros (pre & -> & Hpre & Hlen). destruct pre as [|ch pre].
      * left. reflexivity.
      * right. inversion Hpre; subst. exists (pre ++ t). split.
        -- apply in_one_char. exists ch. auto.
        -- apply IH. exists pre. repeat split; [auto | simpl in Hlen; lia].
Qed.

Lemma in_run_Repeat_CharSet ic n negate items (s t : str) :
  In t (run ic n (Repeat (CharSet negate items)) s)
  <-> exists pre, s = pre ++ t
        /\ Forall (fun ch => set_matches ic negate items ch = true) pre.
Proof.
  change (run ic n (Repeat (CharSet negate items)) s)
    with (star (one_char (set_matches ic negate items)) (List.length s) s).
  rewrite in_star_one_char. split.
  - intros (pre & Hs & Hpre & _). eauto.
  - intros (pre & -> & Hpre). exists pre. repeat split; auto.
    rewrite length_app. lia.
Qed.

Lemma re_match_true ic r (s : str) :
  re_match ic r s = true <-> exists t, In t (run ic (List.length s) r s).
Proof.
  unfold re_match. destruct (run ic (List.length s) r s) as [|t l].
  - split; [discriminate | intros (t & [])].
  - split; [intros _; exists t; left; reflexivity | reflexivity].
Qed.

End ReFacts.

(** ** The image-URL pattern *)

Lemma literal_caseless ic c ch :
  ascii_upper c = c -> ignorecase_extra c = [] ->
  literal_matches ic c ch = (ch =? c)%N.
Proof.
  intros Hu He. unfold literal_matches. rewrite Hu, He. simpl.
  destruct (ch =? c)%N, ic; reflexivity.
Qed.

Lemma ci_equal_caseless (w s : str) :
  Forall (fun c => ascii_upper c = c /\ ignorecase_extra c = []) w ->
  ci_equal w s -> s = w.
Proof.
  intros Hw Hs. induction Hs as [|c ch w s Hc Hs IH]; [reflexivity |].
  inversion Hw as [|? ? Hue Hw']; subst. destruct Hue as [Hu He].
  rewrite literal_caseless in Hc by assumption.
  apply N.eqb_eq in Hc. subst ch. f_equal. auto.
Qed.

Lemma ci_equal_refl (w : str) : ci_equal w w.
Proof.
  induction w; constructor; [| assumption].
  unfold literal_matches. rewrite N.eqb_refl. reflexivity.
Qed.

Lemma first_char_class (c : N) :
  set_matches true true
    [SetSpace; SetLit (chr "/"); SetLit (chr "$"); SetLit (chr ".");
     SetLit (chr "?"); SetLit (chr "#")] c = true
  <-> PyStr.isspace c = false /\ ~ In c (u "/$.?#").
Proof.
  unfold set_matches. cbn [existsb item_matches].
  rewrite !literal_caseless by reflexivity.
  change (u "/$.?#") with [47; 36; 46; 63; 35]%N.
  change (chr "/") with 47%N. change (chr "$") with 36%N.
  change (chr ".") with 46%N. change (chr "?") with 63%N.
  change (chr "#") with 35%N.
  destruct (PyStr.isspace c); simpl.
  - split; [discriminate | intros [? _]; discriminate].
  - destruct (N.eqb_spec c 47), (N.eqb_spec c 36), (N.eqb_spec c 46),
      (N.eqb_spec c 63), (N.eqb_spec c 35); simpl;
      split; intros Hx; try discriminate; try reflexivity;
      first [ split; [reflexivity | intros Hi; intuition congruence]
            | destruct Hx as [_ Hn]; exfalso; apply Hn; subst; tauto ].
Qed.

Lemma nonspace_class (c : N) :
  set_matches true true [SetSpace] c = true <-> PyStr.isspace c = false.
Proof.
  unfold set_matches. simpl. destruct (PyStr.isspace c); simpl;
    split; congruence.
Qed.

Lemma Forall_nonspace_class (l : str) :
  Forall (fun ch => set_matches true true [SetSpace] ch = true) l
  <-> Forall (fun c => PyStr.isspace c = false) l.
Proof. apply Forall_iff. intros c. apply nonspace_class. Qed.

Lemma url_pattern_run (url : str) :
  (exists t, In t (run true (List.length url) url_pattern url))
  <-> exists (scheme : str) (c1 c2 : N) (mid ext tail : str),
        url = scheme ++ u "://" ++ c1 :: c2 :: mid ++ chr "." :: ext ++ tail
        /\ (ci_equal (u "http") scheme \/ ci_equal (u "https") scheme)
        /\ PyStr.isspace c1 = false
        /\ ~ In c1 (u "/$.?#")
        /\ c2 <> 10%N
        /\ Forall (fun c => PyStr.isspace c = false) mid
        /\ (ci_equal (u "jpg") ext \/ ci_equal (u "jpeg") ext
            \/ ci_equal (u "png") ext \/ ci_equal (u "gif") ext)
        /\ line_end tail.
Proof.
  cbv [url_pattern seqs fold_right]. unfold lits. split.
  - intros (t & Ht).
    apply ReFacts.in_run_Seq in Ht as (m0 & H0 & Ht).
    apply ReFacts.in_run_AtBeginning in H0 as [-> _].
    apply ReFacts.in_run_Seq in Ht as (m1 & H1 & Ht).
    apply ReFacts.in_run_Seq in Ht as (m2 & H2 & Ht).
    apply ReFacts.in_run_literals in H2 as (sep & -> & Hsep).
    apply (ci_equal_caseless (u "://")) in Hsep;
      [| repeat constructor]. subst sep.
    apply ReFacts.in_run_Seq in Ht as (m3 & H3 & Ht).
    apply ReFacts.in_run_CharSet in H3 as (c1 & -> & Hc1).
    apply first_char_class in Hc1 as [Hsp Hin].
    apply ReFacts.in_run_Seq in Ht as (m4 & H4 & Ht).
    apply ReFacts.in_run_AnyChar in H4 as (c2 & -> & Hc2).
    apply ReFacts.in_run_Seq in Ht as (m5 & H5 & Ht).
    apply ReFacts.in_run_Repeat_CharSet in H5 as (mid & -> & Hmid).
    apply Forall_nonspace_class in Hmid.
    apply ReFacts.in_run_Seq in Ht as (m6 & H6 & Ht).
    apply ReFacts.in_run_Literal in H6 as (dot & -> & Hdot).
    rewrite literal_caseless in Hdot by reflexivity.
    apply N.eqb_eq in Hdot. subst dot.
    apply ReFacts.in_run_Seq in Ht as (m7 & H7 & Ht).
    apply ReFacts.in_run_Seq in Ht as (m8 & H8 & Ht).
    apply ReFacts.in_run_AtEnd in H8 as [-> Hend].
    assert (exists scheme, url = scheme ++ u "://" ++ c1 :: c2 :: mid ++ chr "." :: m6
              /\ (ci_equal (u "http") scheme \/ ci_equal (u "https") scheme))
      as (scheme & -> & Hscheme).
    { apply ReFacts.in_run_Branch in H1 as [H1 | H1];
        apply ReFacts.in_run_literals in H1 as (scheme & -> & Hs);
        exists scheme; (split; [reflexivity |]); [left | right]; exact Hs. }
    assert (exists ext, m6 = ext ++ m7
              /\ (ci_equal (u "jpg") ext \/ ci_equal (u "jpeg") ext
                  \/ ci_equal (u "png") ext \/ ci_equal (u "gif") ext))
      as (ext & -> & Hext).
    { repeat (apply ReFacts.in_run_Branch in H7 as [H7 | H7]);
        apply ReFacts.in_run_literals in H7 as (ext & -> & He);
        exists ext; (split; [reflexivity |]); tauto. }
    exists scheme, c1, c2, mid, ext, m7. repeat split; auto.
  - intros (scheme & c1 & c2 & mid & ext & tail & -> & Hscheme & Hsp & Hin
            & Hc2 & Hmid & Hext & Hend).
    exists tail.
    apply ReFacts.in_run_Seq. eexists. split.
    { apply ReFacts.in_run_AtBeginning. split; reflexivity. }
    apply ReFacts.in_run_Seq. exists (u "://" ++ c1 :: c2 :: mid ++ chr "." :: ext ++ tail). split.
    { apply ReFacts.in_run_Branch.
      destruct Hscheme as [Hs | Hs]; [left | right];
        apply ReFacts.in_run_literals; exists scheme; auto. }
    apply ReFacts.in_run_Seq. exists (c1 :: c2 :: mid ++ chr "." :: ext ++ tail). split.
    { apply ReFacts.in_run_literals. exists (u "://").
      split; [reflexivity | apply ci_equal_refl]. }
    apply ReFacts.in_run_Seq. eexists. split.
    { apply ReFacts.in_run_CharSet. eexists. split; [reflexivity |].
      apply first_char_class. auto. }
    apply ReFacts.in_run_Seq. eexists. split.
    { apply ReFacts.in_run_AnyChar. eexists. split; [reflexivity | assumption]. }
    apply ReFacts.in_run_Seq. exists (chr "." :: ext ++ tail). split.
    { apply ReFacts.in_run_Repeat_CharSet. exists mid.
      split; [reflexivity | apply Forall_nonspace_class; assumption]. }
    apply ReFacts.in_run_Seq. eexists. split.
    { apply ReFacts.in_run_Literal. eexists. split; [reflexivity |].
      unfold literal_matches. rewrite N.eqb_refl. reflexivity. }
    apply ReFacts.in_run_Seq. exists tail. split.
    { destruct Hext as [He | [He | [He | He]]];
        repeat rewrite ReFacts.in_run_Branch;
        [left | right; left | right; right; left | right; right; right];
        apply ReFacts.in_run_literals; exists ext; auto. }
    apply ReFacts.in_run_Seq. exists tail. split.
    { apply ReFacts.in_run_AtEnd. auto. }
    apply ReFacts.in_run_Empty. reflexivity.
Qed.

Lemma is_valid_image_url_shape (url : str) :
  is_valid_image_url url = true
  <-> image_url_shape url
      \/ exists body, url = body ++ [10%N] /\ image_url_shape body.
Proof.
  unfold is_valid_image_url. rewrite ReFacts.re_match_true, url_pattern_run.
  split.
  - intros (scheme & c1 & c2 & mid & ext & tail & -> & Hs & H1 & H2 & H3
            & H4 & H5 & [-> | ->]).
    + left. exists scheme, c1, c2, mid, ext. rewrite app_nil_r. auto 10.
    + right. exists (scheme ++ u "://" ++ c1 :: c2 :: mid ++ chr "." :: ext).
      split.
      * repeat (rewrite <- ?app_assoc, <- ?app_comm_cons). reflexivity.
      * exists scheme, c1, c2, mid, ext. auto 10.
  - intros [(scheme & c1 & c2 & mid & ext & -> & Hrest)
           | (body & -> & scheme & c1 & c2 & mid & ext & -> & Hrest)].
    + exists scheme, c1, c2, mid, ext, []. rewrite app_nil_r.
      unfold line_end. intuition.
    + exists scheme, c1, c2, mid, ext, [10%N]. split.
      * repeat (rewrite <- ?app_assoc, <- ?app_comm_cons). reflexivity.
      * unfold line_end. intuition.
Qed.






(** ** The validator *)

Section Validator.
Context `{Config} `{Platform}.


End Validator.

(** ** Computations *)

Lemma bind_Ok {A B : Type} (m : M A) (k : A -> M B) w b w' :
  (m ≫= k) w = (Ok b, w')
  <-> exists a w1, m w = (Ok a, w1) /\ k a w1 = (Ok b, w').
Proof.
  unfold mbind, M_bind. destruct (m w) as [[a | e] w1].
  - split; [eauto |]. intros (a' & w2 & Heq & Hk).
    injection Heq as -> ->. exact Hk.
  - split; [discriminate | intros (a' & w2 & Heq & _); discriminate].
Qed.

Lemma bind_Raise {A B : Type} (m : M A) (k : A -> M B) w e w' :
  (m ≫= k) w = (Raise e, w')
  <-> m w = (Raise e, w')
      \/ exists a w1, m w = (Ok a, w1) /\ k a w1 = (Raise e, w').
Proof.
  unfold mbind, M_bind. destruct (m w) as [[a | e1] w1].
  - split.
    + intros Hk. right. exists a, w1. auto.
    + intros [Heq | (a' & w2 & Heq & Hk)]; [discriminate |].
      injection Heq as -> ->. exact Hk.
  - split.
    + intros Heq. left. injection Heq as -> ->. reflexivity.
    + intros [Heq | (a' & w2 & Heq & _)]; [| discriminate].
      injection Heq as -> ->. reflexivity.
Qed.

Lemma try_except_Ok {A : Type} (body : M A) (handler : exn -> M A) w a w' :
  body w = (Ok a, w') -> try_except body handler w = (Ok a, w').
Proof. unfold try_except. intros ->. reflexivity. Qed.

Lemma try_except_Raise {A : Type} (body : M A) (handler : exn -> M A)
    w e w1 :
  body w = (Raise e, w1) -> try_except body handler w = handler e w1.
Proof. unfold try_except. intros ->. reflexivity. Qed.

Lemma for_each_Ok {A B : Type} (f : A -> M B) (xs : list A) w ys w' :
  for_each f xs w = (Ok ys, w') ->
  Forall2 (fun x y => exists w1 w2, f x w1 = (Ok y, w2)) xs ys.
Proof.
  revert w ys w'. induction xs as [|x xs IH]; intros w ys w'; simpl.
  - intros Heq. injection Heq as <- _. constructor.
  - intros Heq. apply bind_Ok in Heq as (y & w1 & Hy & Heq).
    apply bind_Ok in Heq as (ys' & w2 & Hys & Heq).
    injection Heq as <- _.
    constructor; [exists w, w1; exact Hy | eapply IH; exact Hys].
Qed.

Section Preserves.
Context {R : relation world} `{!PreOrder R}.

Lemma preserves_ret {A : Type} (a : A) : preserves R (mret a).
Proof. intros w r w' Heq. injection Heq as _ <-. reflexivity. Qed.

Lemma preserves_raise {A : Type} (e : exn) : preserves R (@raise A e).
Proof. intros w r w' Heq. injection Heq as _ <-. reflexivity. Qed.

Lemma preserves_lift {A : Type} (r : result A) : preserves R (lift r).
Proof. intros w r' w' Heq. injection Heq as _ <-. reflexivity. Qed.

Lemma preserves_bind {A B : Type} (m : M A) (k : A -> M B) :
  preserves R m -> (forall a, preserves R (k a)) -> preserves R (m ≫= k).
Proof.
  intros Hm Hk w r w'. unfold mbind, M_bind.
  destruct (m w) as [[a | e] w1] eqn:Hmw; intros Heq.
  - transitivity w1; [eapply Hm | eapply Hk]; eassumption.
  - injection Heq as _ <-. eapply Hm. eassumption.
Qed.

Lemma preserves_try {A : Type} (body : M A) (handler : exn -> M A) :
  preserves R body -> (forall e, preserves R (handler e)) ->
  preserves R (try_except body handler).
Proof.
  intros Hb Hh w r w'. unfold try_except.
  destruct (body w) as [[a | e] w1] eqn:Hbw; intros Heq.
  - injection Heq as _ <-. eapply Hb. eassumption.
  - transitivity w1; [eapply Hb | eapply Hh]; eassumption.
Qed.

Lemma preserves_for_each {A B : Type} (f : A -> M B) (xs : list A) :
  (forall x, preserves R (f x)) -> preserves R (for_each f xs).
Proof.
  intros Hf. induction xs as [|x xs IH]; simpl.
  - apply preserves_ret.
  - apply preserves_bind; [apply Hf |]. intros y.
    apply preserves_bind; [apply IH |]. intros ys. apply preserves_ret.
Qed.


End Preserves.

(** ** The jobs table *)

Section Table.
Context `{Platform}.

Lemma put_item_ok (item : Item) w :
  dynamodb_fault (clock w) = None ->
  put_item item w
  = (Ok tt, mkWorld (<[requestId item := item]> (table w)) (s3 w)
                    (background w) (S (clock w))).
Proof.
  intros Hf. unfold put_item, mbind, M_bind, tick. rewrite Hf. reflexivity.
Qed.

Lemma put_item_fault (item : Item) w message :
  dynamodb_fault (clock w) = Some message ->
  put_item item w = (Raise (Error message), ticked w).
Proof.
  intros Hf. unfold put_item, mbind, M_bind, tick. rewrite Hf. reflexivity.
Qed.

Lemma write_to_db_ok (item : Item) w :
  dynamodb_fault (clock w) = None ->
  write_to_db item w
  = (Ok tt, mkWorld (<[requestId item := item]> (table w)) (s3 w)
                    (background w) (S (clock w))).
Proof.
  intros Hf. unfold write_to_db.
  apply try_except_Ok, put_item_ok, Hf.
Qed.

Lemma write_to_db_fault (item : Item) w message :
  dynamodb_fault (clock w) = Some message ->
  write_to_db item w
  = (Raise (HTTPException 500
              (u "Error occurred while writing to DB: " ++ message)),
     ticked w).
Proof.
  intros Hf. unfold write_to_db.
  rewrite (try_except_Raise _ _ w (Error message) (ticked w));
    [reflexivity | apply put_item_fault, Hf].
Qed.

(** [write_to_db] either stores the item or raises its own 500. *)
Lemma write_to_db_cases (item : Item) w :
  (dynamodb_fault (clock w) = None
   /\ write_to_db item w
      = (Ok tt, mkWorld (<[requestId item := item]> (table w)) (s3 w)
                        (background w) (S (clock w))))
  \/ (exists message,
        dynamodb_fault (clock w) = Some message
        /\ write_to_db item w
           = (Raise (HTTPException 500
                       (u "Error occurred while writing to DB: " ++ message)),
              ticked w)).
Proof.
  destruct (dynamodb_fault (clock w)) as [message |] eqn:Hf.
  - right. exists message. split; [reflexivity |]. apply write_to_db_fault, Hf.
  - left. split; [reflexivity |]. apply write_to_db_ok, Hf.
Qed.

Lemma get_item_ok (key : str) w :
  dynamodb_fault (clock w) = None ->
  get_item key w = (Ok (table w !! key), ticked w).
Proof.
  intros Hf. unfold get_item, mbind, M_bind, tick. rewrite Hf. reflexivity.
Qed.

(** A stored record comes back, with status 200. *)
Lemma get_status_found (requestId : str) (item : Item) w :
  dynamodb_fault (clock w) = None ->
  table w !! requestId = Some item ->
  get_status requestId w = (Ok item, ticked w).
Proof.
  intros Hf Hitem. unfold get_status, read_from_db.
  apply try_except_Ok. apply bind_Ok. exists (Some item), (ticked w).
  split; [| reflexivity]. rewrite <- Hitem. apply get_item_ok, Hf.
Qed.

(** The 404 raised for a missing record is raised inside the [try] and
    caught by its [except Exception]: the answer is a 500. *)
Lemma get_status_unknown (requestId : str) w :
  dynamodb_fault (clock w) = None ->
  table w !! requestId = None ->
  get_status requestId w
  = (Raise (HTTPException 500
              (u "Exception occurred: "
                 ++ http_exception_str 404
                      (u "requestId: " ++ requestId ++ u " not found!"))),
     ticked w).
Proof.
  intros Hf Hnone. unfold get_status, read_from_db.
  rewrite (try_except_Raise _ _ w
             (HTTPException 404
                (u "requestId: " ++ requestId ++ u " not found!"))
             (ticked w)); [reflexivity |].
  apply bind_Raise. right. exists None, (ticked w).
  split; [| reflexivity]. rewrite <- Hnone. apply get_item_ok, Hf.
Qed.

(** A failure of the store is a 500 as well. *)
Lemma get_status_store_failure (requestId : str) w message :
  dynamodb_fault (clock w) = Some message ->
  get_status requestId w
  = (Raise (HTTPException 500 (u "Exception occurred: " ++ message)),
     ticked w).
Proof.
  intros Hf. unfold get_status, read_from_db.
  rewrite (try_except_Raise _ _ w (Error message) (ticked w));
    [reflexivity |].
  apply bind_Raise. left.
  unfold get_item, mbind, M_bind, tick. rewrite Hf. reflexivity.
Qed.

End Table.

(** C4.  On an empty jobs table that answers, [GET /status/abc] is a 500
    whose detail quotes the 404 that [read_from_db] raised and caught. *)
Theorem get_status_unknown_is_500 :
  table Fake.start !! u "abc" = None
  /\ @get_status Fake.quiet (u "abc") Fake.start
     = (Raise (HTTPException 500
                 (u "Exception occurred: 404: requestId: abc not found!")),
        ticked Fake.start)
  /\ http_status (@get_status Fake.quiet (u "abc") Fake.start).1 = 500%Z.
Proof. vm_compute. repeat split. Qed.

(** ** The image transformer *)

Section Transformer.
Context `{Config} `{Platform}.

Lemma save_arguments_jpeg (image_format : str) :
  image_format = u "JPEG" \/ image_format = u "JPG" ->
  save_arguments image_format = mkSave (u "JPEG") (Some IMAGE_QUALITY) None.
Proof.
  intros Hf. unfold save_arguments. rewrite bool_decide_eq_true_2; [reflexivity |].
  rewrite !elem_of_cons. tauto.
Qed.

Lemma save_arguments_png :
  save_arguments (u "PNG")
  = mkSave (u "PNG") None (Some (IMAGE_QUALITY / 10)%Z).
Proof. reflexivity. Qed.

Lemma save_arguments_other (image_format : str) :
  image_format <> u "JPEG" -> image_format <> u "JPG" ->
  image_format <> u "PNG" ->
  save_arguments image_format = mkSave image_format None None.
Proof.
  intros H1 H2 H3. unfold save_arguments.
  rewrite bool_decide_eq_false_2
    by (rewrite !elem_of_cons, elem_of_nil; tauto).
  rewrite bool_decide_eq_false_2 by assumption. reflexivity.
Qed.

(** Once the image is fetched and decoded, [compress_image] is the one
    [save] call followed by the upload of what it wrote. *)
Lemma compress_image_decoded (url : str) (r : response) (img : image) w :
  requests_get (clock w) url = Returns r ->
  ((400 <=? response_status r)%Z && (response_status r <? 600)%Z) = false ->
  Image_open (content r) = Returns img ->
  compress_image url w
  = (output_io ← lift (of_answer
                         (Image_save img (save_arguments (format img))));
     upload_image_to_s3 output_io (str_lower (format img))) (ticked w).
Proof.
  intros Hget Hstatus Hopen.
  unfold compress_image, get, raise_for_status.
  unfold mbind at 1, M_bind at 1. unfold mbind at 1, M_bind at 1, tick.
  cbn [clock]. rewrite Hget. cbn [lift of_answer].
  rewrite Hstatus.
  unfold mbind at 1, M_bind at 1. cbn [mret M_ret].
  unfold mbind at 1, M_bind at 1. rewrite Hopen. reflexivity.
Qed.

(** C7.  A decoded image is encoded once: a JPEG (or JPG) as JPEG with the
    configured quality, a PNG as PNG with compression level quality // 10
    (5 for quality 50), and an image of any other format in that same
    format with no further argument. *)
Theorem compress_image_encoding (url : str) (r : response) (img : image) w :
  requests_get (clock w) url = Returns r ->
  ((400 <=? response_status r)%Z && (response_status r <? 600)%Z) = false ->
  Image_open (content r) = Returns img ->
  exists args,
    compress_image url w
    = (output_io ← lift (of_answer (Image_save img args));
       upload_image_to_s3 output_io (str_lower (format img))) (ticked w)
    /\ (format img = u "JPEG" \/ format img = u "JPG" ->
        args = mkSave (u "JPEG") (Some IMAGE_QUALITY) None)
    /\ (format img = u "PNG" ->
        args = mkSave (u "PNG") None (Some (IMAGE_QUALITY / 10)%Z)
        /\ (IMAGE_QUALITY = 50%Z -> compress_level args = Some 5%Z))
    /\ (format img <> u "JPEG" -> format img <> u "JPG" ->
        format img <> u "PNG" ->
        args = mkSave (format img) None None).
Proof.
  intros Hget Hstatus Hopen. exists (save_arguments (format img)).
  split; [eapply compress_image_decoded; eassumption |].
  split; [apply save_arguments_jpeg |].
  split; [| apply save_arguments_other].
  intros ->. rewrite save_arguments_png. split; [reflexivity |].
  intros ->. reflexivity.
Qed.

End Transformer.

(** ** The upload *)

Section Upload.
Context `{Config} `{Platform}.


(** [validate_row] raises 400s and the unpacking error, nothing else. *)
Lemma validate_row_raises (row : list str) (e : exn) :
  validate_row row = Raise e ->
  (exists detail, e = HTTPException 400 detail /\ e <> size_limit_error)
  \/ e = Error (u "too many values to unpack (expected 3)").
Proof.
  unfold validate_row, size_limit_error.
  destruct (List.length row <? 3)%nat.
  { intros Heq. injection Heq as <-. left. eexists. split; [reflexivity |].
    intros Hn. injection Hn as Hn. vm_compute in Hn. discriminate. }
  destruct row as [|sno [|name [|urls [|extra row]]]];
    try (intros Heq; injection Heq as <-; right; reflexivity).
  destruct (PyStr.isdigit unicode_isdigit sno); simpl.
  2:{ intros Heq. injection Heq as <-. left. eexists. split; [reflexivity |].
      intros Hn. injection Hn as Hn. vm_compute in Hn. discriminate. }
  destruct (is_alphanumeric_with_spaces name); simpl.
  2:{ intros Heq. injection Heq as <-. left. eexists. split; [reflexivity |].
      intros Hn. injection Hn as Hn. vm_compute in Hn. discriminate. }
  destruct (all_valid_image_urls urls); simpl; [discriminate |].
  intros Heq. injection Heq as <-. left. eexists. split; [reflexivity |].
  intros Hn. injection Hn as Hn. vm_compute in Hn. discriminate.
Qed.

Lemma validate_rows_raises (data : list (list str)) (e : exn) :
  validate_rows data = Raise e ->
  (exists detail, e = HTTPException 400 detail /\ e <> size_limit_error)
  \/ e = Error (u "too many values to unpack (expected 3)").
Proof.
  induction data as [|row data IH]; simpl; [discriminate |].
  destruct (validate_row row) as [[] | e'] eqn:Hrow; [exact IH |].
  intros Heq. injection Heq as <-. apply validate_row_raises in Hrow. exact Hrow.
Qed.

Lemma validate_csv_raises (content : bytes) (e : exn) :
  validate_csv content = Raise e ->
  (exists detail, e = HTTPException 400 detail /\ e <> size_limit_error)
  \/ exists message, e = Error message.
Proof.
  unfold validate_csv, size_limit_error.
  destruct (utf8_decode content) as [text | message];
    [| intros Heq; injection Heq as <-; right; eauto].
  destruct (tail_error (csv_reader text)) as [message |];
    [intros Heq; injection Heq as <-; right; eauto |].
  destruct (List.length (rows (csv_reader text)) <=? 1)%nat.
  { intros Heq. injection Heq as <-. left. eexists. split; [reflexivity |].
    intros Hn. injection Hn as Hn. vm_compute in Hn. discriminate. }
  destruct (rows (csv_reader text)) as [|headers data];
    [intros Heq; injection Heq as <-; right; eauto |].
  destruct (bool_decide (headers ≠ VALID_HEADERS)).
  { intros Heq. injection Heq as <-. left. eexists. split; [reflexivity |].
    intros Hn. injection Hn as Hn. vm_compute in Hn. discriminate. }
  intros Heq. apply validate_rows_raises in Heq as [Heq | ->]; [left | right];
    eauto.
Qed.



(** What [upload_csv] answers when [validate_csv] raised: nothing was
    stored. *)
Lemma upload_csv_invalid (file : UploadFile) w (e : exn) :
  validate_csv (Starlette.file file) = Raise e ->
  exists e', upload_csv file w = (Raise e', w)
    /\ (http_status (@Raise (str * str) e') = 400%Z
        \/ http_status (@Raise (str * str) e') = 500%Z).
Proof.
  intros Hv. unfold upload_csv.
  destruct (bool_decide _); [eexists; split; [reflexivity | left; reflexivity] |].
  destruct (_ <? _)%Z; [eexists; split; [reflexivity | left; reflexivity] |].
  rewrite Hv. apply validate_csv_raises in Hv as [(detail & -> & _) | (m & ->)];
    eexists; (split; [reflexivity |]); [left | right]; reflexivity.
Qed.

(** After a successful validation the upload either goes through or ends
    in a 500 of the storage layer. *)
Lemma upload_csv_valid (file : UploadFile) w :
  content_type file = Some (u "text/csv") ->
  (Z.of_nat (List.length (Starlette.file file)) <= MAX_FILE_SIZE)%Z ->
  validate_csv (Starlette.file file) = Ok tt ->
  (exists answer w', upload_csv file w = (Ok answer, w'))
  \/ (exists detail w', upload_csv file w = (Raise (HTTPException 500 detail), w')).
Proof.
  intros Hct Hsize Hv. unfold upload_csv.
  rewrite bool_decide_eq_false_2 by (rewrite Hct; intros Hn; apply Hn; reflexivity).
  replace (_ <? _)%Z with false by (symmetry; apply Z.ltb_ge; exact Hsize).
  rewrite Hv.
  unfold uuid4_hex, upload_to_s3, upload_fileobj, write_to_db, put_item,
    add_task, try_except, raise, mbind, M_bind, mret, M_ret, tick.
  cbn [clock].
  destruct (s3_fault (S (clock w))); [right; eauto |].
  cbn [clock].
  destruct (dynamodb_fault (S (S (clock w)))); [right; eauto |].
  left. eauto.
Qed.

(** C5 (as amended).  An upload of type text/csv within the size limit,
    whose content decodes and parses to a header row and at least one data
    row, with a header row different from the configured list, is refused
    with the 400 of the header check, and the jobs table, the buckets and
    the task list are as before. *)
Theorem upload_csv_header_mismatch (file : UploadFile) w (text : str)
    (headers : list str) (data : list (list str)) :
  content_type file = Some (u "text/csv") ->
  (Z.of_nat (List.length (Starlette.file file)) <= MAX_FILE_SIZE)%Z ->
  utf8_decode (Starlette.file file) = Returns text ->
  csv_reader text = mkParsed (headers :: data) None ->
  data <> [] ->
  headers <> VALID_HEADERS ->
  upload_csv file w = (Raise header_mismatch_error, w).
Proof.
  intros Hct Hsize Hdec Hcsv Hdata Hheaders. unfold upload_csv.
  rewrite bool_decide_eq_false_2 by (rewrite Hct; intros Hn; apply Hn; reflexivity).
  replace (_ <? _)%Z with false by (symmetry; apply Z.ltb_ge; exact Hsize).
  unfold validate_csv. rewrite Hdec, Hcsv. cbn [tail_error rows].
  destruct data as [|row data]; [contradiction |]. cbn [List.length Nat.leb].
  rewrite bool_decide_eq_true_2 by assumption. reflexivity.
Qed.

(** C9.  An upload of exactly [MAX_FILE_SIZE] bytes is never answered with
    the size-limit error; an upload of one byte more is always refused with
    a 400, and nothing is stored. *)
Theorem upload_csv_size_boundary (file : UploadFile) w :
  (Z.of_nat (List.length (Starlette.file file)) = MAX_FILE_SIZE ->
   (upload_csv file w).1 <> Raise size_limit_error)
  /\ (Z.of_nat (List.length (Starlette.file file)) = (MAX_FILE_SIZE + 1)%Z ->
      exists detail,
        upload_csv file w = (Raise (HTTPException 400 detail), w)).
Proof.
  split; intros Hsize.
  - destruct (decide (content_type file = Some (u "text/csv"))) as [Hct | Hct].
    + destruct (validate_csv (Starlette.file file)) as [[] | e] eqn:Hv.
      * destruct (upload_csv_valid file w Hct) as
          [(answer & w' & ->) | (detail & w' & ->)];
          [lia | exact Hv | discriminate | discriminate].
      * unfold upload_csv.
        rewrite bool_decide_eq_false_2
          by (rewrite Hct; intros Hn; apply Hn; reflexivity).
        replace (_ <? _)%Z with false by (symmetry; apply Z.ltb_ge; lia).
        rewrite Hv.
        apply validate_csv_raises in Hv as [(detail & -> & Hne) | (m & ->)];
          simpl; [| discriminate].
        intros Hn. apply Hne. injection Hn as Hn. rewrite Hn. reflexivity.
    + unfold upload_csv. rewrite bool_decide_eq_true_2 by exact Hct.
      simpl. intros Hn. injection Hn as Hn. vm_compute in Hn. discriminate.
  - unfold upload_csv. destruct (bool_decide _); [eauto |].
    replace (_ <? _)%Z with true by (symmetry; apply Z.ltb_lt; lia). eauto.
Qed.


End Upload.

(** ** The background run *)

Section Pipeline.
Context `{Config} `{Platform}.

Lemma same_documents_preorder : PreOrder same_documents.
Proof.
  split.
  - intros w key. reflexivity.
  - intros w1 w2 w3 H12 H23 key. rewrite H23. apply H12.
Qed.

#[local] Existing Instance same_documents_preorder.










Lemma upload_to_s3_replace_Ok (document : bytes) (requestId : str) w w' :
  upload_to_s3 true document requestId w = (Ok tt, w') ->
  s3 w' = <[csv_key requestId :=
              mkObject document [(u "Content-Type", Some (u "text/csv"))]]>
            (s3 w)
  /\ table w' = table w.
Proof.
  unfold upload_to_s3, try_except, raise, upload_fileobj, mbind, M_bind, tick.
  cbn [clock]. destruct (s3_fault (clock w)); [discriminate |].
  intros Heq. cbv beta in Heq. injection Heq as <-. split; reflexivity.
Qed.

Section SeparateBuckets.
Hypothesis separate_buckets : AWS_IMAGE_BUCKET <> AWS_BUCKET_NAME.








End SeparateBuckets.

Lemma process_row_Ok (row : list str) w (out : list cell) w' :
  process_row row w = (Ok out, w') -> enriched row out.
Proof.
  unfold process_row, enriched. destruct (row !! 2%nat) as [field |];
    [| discriminate].
  intros Heq. apply bind_Ok in Heq as (urls & w1 & Hurls & Heq).
  injection Heq as <- _. exists field, urls.
  split; [reflexivity |]. split; [reflexivity |].
  eapply for_each_Ok. exact Hurls.
Qed.

(** What a successful [build_csv] read and what it wrote. *)
Lemma build_csv_Ok (requestId : str) w (document : bytes) w' :
  build_csv requestId w = (Ok document, w') ->
  exists (original : s3_object) (text : str) (headers : list str)
         (data : list (list str)) (processed : list (list cell)),
    s3 w !! csv_key requestId = Some original
    /\ utf8_decode (Body original) = Returns text
    /\ csv_reader text = mkParsed (headers :: data) None
    /\ Forall2 enriched data processed
    /\ csv_writerows
         ([StrList (headers ++ [u "Output Image Urls"])] :: processed)
       = Returns document.
Proof.
  unfold build_csv, read_from_s3. intros Heq.
  apply bind_Ok in Heq as ([] & w1 & Hdb & Heq).
  apply bind_Ok in Heq as (content & w2 & Hget & Heq).
  apply bind_Ok in Heq as (text & w3 & Htext & Heq).
  assert (Hs3 : s3 w1 = s3 w).
  { destruct (write_to_db_cases (in_progress requestId) w)
      as [[_ Hw] | (m & _ & Hw)]; unfold in_progress in Hw;
      rewrite Hw in Hdb; [| discriminate].
    injection Hdb as <-. reflexivity. }
  assert (exists original, s3 w1 !! csv_key requestId = Some original
                           /\ Body original = content) as (original & Ho & <-).
  { revert Hget. unfold get_object, mbind, M_bind, tick, raise. cbn [clock].
    destruct (s3_fault (clock w1)); [discriminate |]. cbv beta. cbn [s3].
    unfold csv_key.
    destruct (s3 w1 !! (AWS_BUCKET_NAME, requestId ++ u ".csv"))
      as [object |]; [| discriminate].
    intros Hget. injection Hget as <- _. eauto. }
  unfold lift in Htext.
  destruct (utf8_decode (Body original)) as [text' | m] eqn:Hdec;
    [| discriminate].
  injection Htext as <- <-. cbv zeta in Heq.
  destruct (csv_reader text') as [rs tail] eqn:Hcsv. cbn [rows tail_error] in Heq.
  destruct rs as [|headers data]; [discriminate |].
  apply bind_Ok in Heq as (processed & w4 & Hrows & Heq).
  destruct tail as [m |]; [discriminate |].
  unfold lift in Heq.
  destruct (csv_writerows _) as [doc | m] eqn:Hwrite; [| discriminate].
  injection Heq as <- _.
  exists original, text', headers, data, processed.
  rewrite <- Hs3. repeat split; try assumption.
  eapply Forall2_impl; [eapply for_each_Ok; exact Hrows |].
  intros row out (wa & wb & Hrow). eapply process_row_Ok. exact Hrow.
Qed.

Lemma process_body_Ok (requestId : str) w w' :
  process_body requestId w = (Ok tt, w') ->
  exists (document : bytes) (w1 : world),
    build_csv requestId w = (Ok document, w1)
    /\ s3 w' !! csv_key requestId
       = Some (mkObject document [(u "Content-Type", Some (u "text/csv"))])
    /\ table w' !! requestId = Some (completed requestId).
Proof.
  unfold process_body, write_result. intros Heq.
  apply bind_Ok in Heq as ([] & w2 & Hres & Hdb).
  apply bind_Ok in Hres as (document & w1 & Hbuild & Hup).
  apply upload_to_s3_replace_Ok in Hup as [Hs3 Htable].
  exists document, w1. split; [exact Hbuild |].
  destruct (write_to_db_cases (completed requestId) w2)
    as [[_ Hw] | (m & _ & Hw)]; unfold completed in Hw;
    rewrite Hw in Hdb; [| discriminate].
  injection Hdb as <-. cbn [s3 table]. split.
  - rewrite Hs3. apply lookup_insert_eq.
  - apply lookup_insert_eq.
Qed.

(** A run that returns with the Completed status went through its whole
    body. *)
Lemma process_file_completed (job : str) w w' :
  process_file job w = (Ok tt, w') ->
  table w' !! job = Some (completed job) ->
  process_body job w = (Ok tt, w').
Proof.
  unfold process_file, try_except.
  destruct (process_body job w) as [[[] | e] w1]; [auto |].
  intros Hdb Hstatus.
  destruct (write_to_db_cases (failed job e) w1)
    as [[_ Hw] | (m & _ & Hw)]; unfold failed in Hw;
    rewrite Hw in Hdb; [| discriminate].
  injection Hdb as <-. cbn [table requestId] in Hstatus.
  rewrite lookup_insert_eq in Hstatus. injection Hstatus as Hstatus.
  vm_compute in Hstatus. discriminate.
Qed.


(** The header row of a completed run: the header names and the new one,
    as a list, in the only cell of the row. *)
Lemma process_file_header_row (requestId : str) w w' :
  process_file requestId w = (Ok tt, w') ->
  table w' !! requestId = Some (completed requestId) ->
  exists (original : s3_object) (text : str) (headers : list str)
         (data : list (list str)) (processed : list (list cell))
         (document : bytes),
    s3 w !! csv_key requestId = Some original
    /\ utf8_decode (Body original) = Returns text
    /\ csv_reader text = mkParsed (headers :: data) None
    /\ csv_writerows
         ([StrList (headers ++ [u "Output Image Urls"])] :: processed)
       = Returns document
    /\ Body <$> s3 w' !! csv_key requestId = Some document.
Proof.
  intros Hrun Hstatus.
  apply process_file_completed in Hrun; [| exact Hstatus].
  apply process_body_Ok in Hrun as (document & w1 & Hbuild & Hdoc & _).
  apply build_csv_Ok in Hbuild
    as (original & text & headers & data & processed & Ho & Hdec & Hcsv
        & Hrows & Hwrite).
  exists original, text, headers, data, processed, document.
  repeat (split; [assumption |]). rewrite Hdoc. reflexivity.
Qed.

(** C8 (as amended).  [process_file] returns or raises the 500 of
    [write_to_db]: an exception leaves it only when the [try] block raised
    and the write of the Failed status then found the jobs table failing.
    Every exception of the [try] block is caught and answered with that
    write; when the write succeeds, [process_file] returns and the job's
    status is the Failed one. *)
Theorem process_file_outcome (requestId : str) w :
  (forall e' w', process_file requestId w = (Raise e', w') ->
     exists e w1 message,
       process_body requestId w = (Raise e, w1)
       /\ dynamodb_fault (clock w1) = Some message
       /\ e' = HTTPException 500
                 (u "Error occurred while writing to DB: " ++ message))
  /\ (forall e w1, process_body requestId w = (Raise e, w1) ->
        process_file requestId w = write_to_db (failed requestId e) w1
        /\ (dynamodb_fault (clock w1) = None ->
            exists w', process_file requestId w = (Ok tt, w')
              /\ table w' !! requestId = Some (failed requestId e))).
Proof.
  assert (Hcatch : forall e w1, process_body requestId w = (Raise e, w1) ->
            process_file requestId w = write_to_db (failed requestId e) w1).
  { intros e w1 Hbody. unfold process_file.
    rewrite (try_except_Raise _ _ w e w1 Hbody). reflexivity. }
  split.
  - intros e' w' Hrun.
    destruct (process_body requestId w) as [[[] | e] w1] eqn:Hbody.
    + unfold process_file in Hrun.
      rewrite (try_except_Ok _ _ w tt w1 Hbody) in Hrun. discriminate.
    + rewrite (Hcatch e w1 eq_refl) in Hrun.
      destruct (write_to_db_cases (failed requestId e) w1)
        as [[_ Hw] | (m & Hm & Hw)]; rewrite Hw in Hrun; [discriminate |].
      injection Hrun as <- _. exists e, w1, m. auto.
  - intros e w1 Hbody. split; [apply Hcatch, Hbody |].
    intros Hup. rewrite (Hcatch e w1 Hbody), (write_to_db_ok _ _ Hup).
    eexists. split; [reflexivity |]. cbn [table]. apply lookup_insert_eq.
Qed.

End Pipeline.

(** ** Runs on the in-memory platform *)



(** When it is the write of the Completed status that fails, the result has
    been uploaded already: the job ends Failed over the enriched document. *)
Lemma completed_write_can_fail :
  (@process_file Fake.usual Fake.late Fake.first_id
     (Fake.after_upload Fake.scenario)).1 = Ok tt
  /\ status <$> table (@process_file Fake.usual Fake.late Fake.first_id
                         (Fake.after_upload Fake.scenario)).2
                  !! Fake.first_id
     = Some (u "Processing failed due to 500: Error occurred while writing "
               ++ u "to DB: ProvisionedThroughputExceededException!")
  /\ s3 (@process_file Fake.usual Fake.late Fake.first_id
           (Fake.after_upload Fake.scenario)).2
       !! @csv_key Fake.usual Fake.first_id
     <> s3 (Fake.after_upload Fake.scenario)
          !! @csv_key Fake.usual Fake.first_id.
Proof. vm_compute. repeat split. discriminate. Qed.


(** C3.  The scenario of the specification, run to the end: the first row
    handed to [csv.writer] has one cell, the list of the four names, and the
    document stored under the job's key begins with that list as a single
    quoted field. *)
Theorem scenario_header_row_is_one_cell :
  (@process_file Fake.usual Fake.quiet Fake.first_id
     (Fake.after_upload Fake.scenario)).1 = Ok tt
  /\ table (@process_file Fake.usual Fake.quiet Fake.first_id
              (Fake.after_upload Fake.scenario)).2 !! Fake.first_id
     = Some (completed Fake.first_id)
  /\ exists (processed : list (list cell)) (document : bytes),
       @csv_writerows Fake.quiet
         ([StrList [u "sno"; u "product_name"; u "image_urls";
                    u "Output Image Urls"]] :: processed)
       = Returns document
       /\ Body <$> s3 (@process_file Fake.usual Fake.quiet Fake.first_id
                         (Fake.after_upload Fake.scenario)).2
                     !! @csv_key Fake.usual Fake.first_id
          = Some document
       /\ firstn 62 document
          = Byte.x22
            :: Fake.b "['sno', 'product_name', 'image_urls', 'Output Image Urls']"
            ++ [Byte.x22; Byte.x0d; Byte.x0a].
Proof.
  split; [vm_compute; reflexivity |].
  split; [vm_compute; reflexivity |].
  exists [[Str (u "1"); Str (u "Widget A");
           Str (u "http://example.com/a.jpg");
           StrList [u "https://compressed-images.s3.eu-west-1.amazonaws.com/"
                      ++ u "00000000000040008000000000000006.jpeg"]]].
  eexists. split; [reflexivity |].
  split; vm_compute; reflexivity.
Qed.

(** C5, counterexample.  A file of one row, [a,b,c]: its header row is not
    the configured one, and the upload is refused as empty, not for its
    header. *)
Lemma header_only_upload_is_empty_error :
  @utf8_decode Fake.quiet (file Fake.header_only) = Returns (u "a,b,c" ++ [10%N])
  /\ rows (@csv_reader Fake.quiet (u "a,b,c" ++ [10%N]))
     = [[u "a"; u "b"; u "c"]]
  /\ [u "a"; u "b"; u "c"] <> @VALID_HEADERS Fake.usual
  /\ (@upload_csv Fake.usual Fake.quiet Fake.header_only Fake.start).1
     = Raise (HTTPException 400 (u "CSV file is empty"))
  /\ (@upload_csv Fake.usual Fake.quiet Fake.header_only Fake.start).1
     <> Raise (@header_mismatch_error Fake.usual Fake.quiet).
Proof. vm_compute. repeat split; discriminate. Qed.

(** C5, witness: the same header over one data row. *)
Lemma upload_csv_header_mismatch_witness :
  @upload_csv Fake.usual Fake.quiet Fake.wrong_header Fake.start
  = (Raise (@header_mismatch_error Fake.usual Fake.quiet), Fake.start).
Proof.
  apply (@upload_csv_header_mismatch Fake.usual Fake.quiet Fake.wrong_header
           Fake.start
           (u "a,b,c" ++ [10%N] ++ u "1,Widget A,http://example.com/a.jpg"
              ++ [10%N])
           [u "a"; u "b"; u "c"]
           [[u "1"; u "Widget A"; u "http://example.com/a.jpg"]]).
  - vm_compute. reflexivity.
  - vm_compute. discriminate.
  - vm_compute. reflexivity.
  - vm_compute. reflexivity.
  - discriminate.
  - vm_compute. discriminate.
Defined.


(** The other way round: [http://a.jpg] has the scheme, a non-empty rest
    without whitespace and the extension, and is refused, the pattern asking
    for two characters before the dot of the extension. *)
Lemma short_host_fails_url_pattern :
  @validate_row Fake.quiet [u "1"; u "Widget A"; u "http://a.jpg"]
  = Raise (invalid_image_urls_error (u "http://a.jpg") (u "1"))
  /\ Forall (fun entry => spec_image_url (PyStr.strip entry) = true)
            (PyStr.split (chr ",") (u "http://a.jpg")).
Proof.
  split; [vm_compute; reflexivity |].
  constructor; [vm_compute; reflexivity | constructor].
Qed.

(** C7, witness: the PNG page, at quality 50. *)
Lemma compress_image_encoding_witness :
  exists args,
    @compress_image Fake.usual Fake.quiet (u "http://example.com/b.png")
      Fake.start
    = (output_io ← lift (of_answer
                           (@Image_save Fake.quiet
                              (mkImage (u "PNG") Fake.png_file) args));
       @upload_image_to_s3 Fake.usual Fake.quiet output_io (u "png"))
        (ticked Fake.start)
    /\ compress_level args = Some 5%Z.
Proof.
  destruct (@compress_image_encoding Fake.usual Fake.quiet
              (u "http://example.com/b.png")
              (mkResponse 200 Fake.png_file)
              (mkImage (u "PNG") Fake.png_file) Fake.start)
    as (args & Hrun & _ & Hpng & _).
  - vm_compute. reflexivity.
  - vm_compute. reflexivity.
  - vm_compute. reflexivity.
  - exists args. split; [exact Hrun |].
    destruct (Hpng eq_refl) as [_ Hlevel]. apply Hlevel. reflexivity.
Defined.

(** C8, counterexample.  The jobs table is down from the start of the run:
    the write of the Processing status raises, so does the write of the
    Failed status in the handler, and the exception leaves
    [process_file]. *)
Lemma process_file_can_raise :
  (@process_file Fake.usual Fake.down Fake.first_id
     (Fake.after_upload Fake.scenario)).1
  = Raise (HTTPException 500
             (u "Error occurred while writing to DB: ServiceUnavailable"))
  /\ table (@process_file Fake.usual Fake.down Fake.first_id
              (Fake.after_upload Fake.scenario)).2 !! Fake.first_id
     = Some (mkItem Fake.first_id (u "Processing Pending")).
Proof. vm_compute. repeat split. Qed.

(** C8, witness: the fetch fails and the jobs table answers. *)
Lemma process_file_outcome_witness :
  exists w',
    @process_file Fake.usual Fake.quiet Fake.first_id
      (Fake.after_upload Fake.unreachable) = (Ok tt, w')
    /\ table w' !! Fake.first_id
       = Some (@failed Fake.quiet Fake.first_id
                 (Error (u "Connection refused"))).
Proof.
  apply (proj2 (@process_file_outcome Fake.usual Fake.quiet Fake.first_id
                  (Fake.after_upload Fake.unreachable))
           (Error (u "Connection refused"))
           (@process_body Fake.usual Fake.quiet Fake.first_id
              (Fake.after_upload Fake.unreachable)).2).
  - vm_compute. reflexivity.
  - vm_compute. reflexivity.
Defined.

(** C9, witness: the scenario upload under a limit of exactly its size, and
    with one byte more. *)
Lemma upload_csv_size_boundary_witness :
  (@upload_csv Fake.exact_fit Fake.quiet Fake.scenario Fake.start).1
  <> Raise size_limit_error
  /\ exists detail,
       @upload_csv Fake.exact_fit Fake.quiet Fake.one_more Fake.start
       = (Raise (HTTPException 400 detail), Fake.start).
Proof.
  split.
  - apply (proj1 (@upload_csv_size_boundary Fake.exact_fit Fake.quiet
                    Fake.scenario Fake.start)).
    vm_compute. reflexivity.
  - apply (proj2 (@upload_csv_size_boundary Fake.exact_fit Fake.quiet
                    Fake.one_more Fake.start)).
    vm_compute. reflexivity.
Defined.



(* ===================================================================== *)
(** * More of [main.py] *)
(* ===================================================================== *)

(** ** The field checks *)

Lemma alphanumeric_class (c : N) :
  set_matches false false
    [SetRange (chr "a") (chr "z"); SetRange (chr "A") (chr "Z");
     SetRange (chr "0") (chr "9"); SetLit (chr " ")] c
  = alphanumeric_char c.
Proof.
  unfold set_matches, alphanumeric_char, item_matches, literal_matches.
  cbn [existsb xorb andb].
  change (chr "a") with 97%N. change (chr "z") with 122%N.
  change (chr "A") with 65%N. change (chr "Z") with 90%N.
  change (chr "0") with 48%N. change (chr "9") with 57%N.
  change (chr " ") with 32%N.
  destruct ((97 <=? c)%N && (c <=? 122)%N), ((65 <=? c)%N && (c <=? 90)%N),
    ((48 <=? c)%N && (c <=? 57)%N), (c =? 32)%N; reflexivity.
Qed.

Lemma Forall_alphanumeric_class (l : str) :
  Forall (fun ch =>
            set_matches false false
              [SetRange (chr "a") (chr "z"); SetRange (chr "A") (chr "Z");
               SetRange (chr "0") (chr "9"); SetLit (chr " ")] ch = true) l
  <-> Forall (fun c => alphanumeric_char c = true) l.
Proof.
  split; apply List.Forall_impl; intros c; rewrite alphanumeric_class; auto.
Qed.

(** X1.  A product name passes exactly when all its characters are ASCII
    letters, digits or spaces, or when it is such a string followed by one
    line feed: the [$] of the pattern also matches before a final line
    feed.  The empty name passes. *)
Theorem is_alphanumeric_with_spaces_spec (s : str) :
  is_alphanumeric_with_spaces s = true
  <-> Forall (fun c => alphanumeric_char c = true) s
      \/ exists body, s = body ++ [10%N]
           /\ Forall (fun c => alphanumeric_char c = true) body.
Proof.
  unfold is_alphanumeric_with_spaces. rewrite ReFacts.re_match_true.
  cbv [alphanumeric_pattern seqs fold_right]. split.
  - intros (t & Ht).
    apply ReFacts.in_run_Seq in Ht as (m0 & H0 & Ht).
    apply ReFacts.in_run_AtBeginning in H0 as [-> _].
    apply ReFacts.in_run_Seq in Ht as (m1 & H1 & Ht).
    apply ReFacts.in_run_Repeat_CharSet in H1 as (pre & -> & Hpre).
    apply Forall_alphanumeric_class in Hpre.
    apply ReFacts.in_run_Seq in Ht as (m2 & H2 & _).
    apply ReFacts.in_run_AtEnd in H2 as [_ [-> | ->]].
    + left. rewrite app_nil_r. exact Hpre.
    + right. exists pre. auto.
  - intros Hs.
    assert (exists pre tail, s = pre ++ tail
              /\ Forall (fun c => alphanumeric_char c = true) pre
              /\ line_end tail) as (pre & tail & -> & Hpre & Hend).
    { destruct Hs as [Hs | (body & -> & Hb)].
      - exists s, []. rewrite app_nil_r. unfold line_end. auto.
      - exists body, [10%N]. unfold line_end. auto. }
    exists tail.
    apply ReFacts.in_run_Seq. eexists. split.
    { apply ReFacts.in_run_AtBeginning. split; reflexivity. }
    apply ReFacts.in_run_Seq. exists tail. split.
    { apply ReFacts.in_run_Repeat_CharSet. exists pre.
      split; [reflexivity | apply Forall_alphanumeric_class, Hpre]. }
    apply ReFacts.in_run_Seq. exists tail. split.
    { apply ReFacts.in_run_AtEnd. auto. }
    apply ReFacts.in_run_Empty. reflexivity.
Qed.

Lemma ci_equal_last (w : str) (c : N) (s : str) :
  ci_equal (w ++ [c]) s ->
  exists front l, s = front ++ [l] /\ literal_matches true c l = true.
Proof.
  unfold ci_equal. intros Hs.
  apply Forall2_app_inv_l in Hs as (front & back & _ & Hback & ->).
  inversion Hback as [|? l ? back' Hl Hnil]; subst.
  inversion Hnil; subst. eauto.
Qed.

(** A string of the shape the URL pattern accepts ends in a letter. *)
Lemma image_url_shape_last (url body : str) (c : N) :
  image_url_shape url -> url = body ++ [c] -> c <> 10%N.
Proof.
  intros (scheme & c1 & c2 & mid & ext & -> & _ & _ & _ & _ & _ & Hext) Heq.
  assert (exists front l, ext = front ++ [l]
            /\ (literal_matches true 103 l = true
                \/ literal_matches true 102 l = true))
    as (front & l & -> & Hl).
  { destruct Hext as [He | [He | [He | He]]].
    - apply (ci_equal_last (u "jp") 103) in He as (f & l & -> & Hl). eauto.
    - apply (ci_equal_last (u "jpe") 103) in He as (f & l & -> & Hl). eauto.
    - apply (ci_equal_last (u "pn") 103) in He as (f & l & -> & Hl). eauto.
    - apply (ci_equal_last (u "gi") 102) in He as (f & l & -> & Hl). eauto. }
  assert (c = l) as ->.
  { change (scheme ++ u "://" ++ c1 :: c2 :: mid ++ chr "." :: front ++ [l])
      with (scheme ++ u "://" ++ [c1; c2] ++ mid ++ [chr "."] ++ front ++ [l])
      in Heq.
    rewrite !app_assoc in Heq. apply app_inj_tail in Heq as [_ Heq]. auto. }
  intros ->. destruct Hl as [Hl | Hl]; vm_compute in Hl; discriminate.
Qed.

(** X2.  A string ending in one line feed is accepted by
    [is_valid_image_url] exactly when what is before the line feed has the
    shape the pattern asks for: the [$] of the pattern matches before a
    final line feed. *)
Theorem is_valid_image_url_line_feed (url : str) :
  is_valid_image_url (url ++ [10%N]) = true <-> image_url_shape url.
Proof.
  rewrite is_valid_image_url_shape. split.
  - intros [Hs | (body & Heq & Hs)].
    + exfalso. eapply image_url_shape_last; [exact Hs | reflexivity |].
      reflexivity.
    + apply app_inj_tail in Heq as [-> _]. exact Hs.
  - intros Hs. right. exists url. auto.
Qed.

Lemma split_nonempty (sep : N) (s : str) : PyStr.split sep s <> [].
Proof.
  destruct s as [|c t]; simpl; [discriminate |].
  destruct (c =? sep)%N; [discriminate |].
  destruct (PyStr.split sep t); discriminate.
Qed.

(** Splitting at a separator splits the list of the parts. *)
Lemma split_app_sep (sep : N) (a b : str) :
  PyStr.split sep (a ++ sep :: b) = PyStr.split sep a ++ PyStr.split sep b.
Proof.
  induction a as [|c t IH]; simpl.
  - rewrite N.eqb_refl. reflexivity.
  - destruct (c =? sep)%N; [rewrite IH; reflexivity |].
    rewrite IH. pose proof (split_nonempty sep t) as Hne.
    destruct (PyStr.split sep t); [contradiction | reflexivity].
Qed.

(** X3.  The check of a field made of two parts joined by a comma is the
    conjunction of the checks of the parts; so a field that is empty, or
    begins or ends with a comma, never passes. *)
Theorem all_valid_image_urls_comma (a b : str) :
  all_valid_image_urls (a ++ u "," ++ b)
  = all_valid_image_urls a && all_valid_image_urls b
  /\ all_valid_image_urls [] = false
  /\ all_valid_image_urls (u "," ++ b) = false
  /\ all_valid_image_urls (a ++ u ",") = false.
Proof.
  assert (Hcomma : forall x y,
            all_valid_image_urls (x ++ u "," ++ y)
            = all_valid_image_urls x && all_valid_image_urls y).
  { intros x y. unfold all_valid_image_urls.
    change (x ++ u "," ++ y) with (x ++ chr "," :: y).
    rewrite split_app_sep. apply forallb_app. }
  assert (Hnil : all_valid_image_urls [] = false) by reflexivity.
  split; [apply Hcomma |]. split; [exact Hnil |]. split.
  - change (u "," ++ b) with ([] ++ u "," ++ b).
    rewrite (Hcomma [] b), Hnil. reflexivity.
  - change (a ++ u ",") with (a ++ u "," ++ []).
    rewrite Hcomma, Hnil. apply andb_false_r.
Qed.

(** ** The validator, row by row *)

Section ValidatorRows.
Context `{Config} `{Platform}.

Lemma validate_row_Ok (row : list str) :
  validate_row row = Ok tt <-> valid_row row.
Proof.
  unfold validate_row, valid_row. split.
  - destruct (List.length row <? 3)%nat; [discriminate |].
    destruct row as [|sno [|name [|urls [|extra row]]]]; try discriminate.
    destruct (PyStr.isdigit unicode_isdigit sno) eqn:Hsno; [| discriminate].
    destruct (is_alphanumeric_with_spaces name) eqn:Hname; [| discriminate].
    destruct (all_valid_image_urls urls) eqn:Hurls; [| discriminate].
    intros _. exists sno, name, urls. auto.
  - intros (sno & name & urls & -> & Hsno & Hname & Hurls).
    simpl. rewrite Hsno, Hname, Hurls. reflexivity.
Qed.

Lemma validate_rows_Ok (data : list (list str)) :
  validate_rows data = Ok tt <-> Forall valid_row data.
Proof.
  induction data as [|row data IH]; simpl.
  - split; [constructor | reflexivity].
  - rewrite Forall_cons, <- IH, <- validate_row_Ok.
    destruct (validate_row row) as [[] | e].
    + tauto.
    + split; [discriminate | intros [Hn _]; discriminate].
Qed.


(** X4.  [validate_csv] accepts a content exactly when it decodes, parses
    without error to the configured header row followed by at least one
    data row, and every data row has exactly three fields: a first that
    [isdigit] accepts, a second that [is_alphanumeric_with_spaces] accepts
    and a third whose comma-separated entries all pass
    [is_valid_image_url] once stripped. *)
Theorem validate_csv_Ok (content : bytes) :
  validate_csv content = Ok tt
  <-> exists (text : str) (data : list (list str)),
        utf8_decode content = Returns text
        /\ csv_reader text = mkParsed (VALID_HEADERS :: data) None
        /\ data <> []
        /\ Forall valid_row data.
Proof.
  unfold validate_csv. split.
  - destruct (utf8_decode content) as [text | m]; [| discriminate].
    destruct (csv_reader text) as [rs tail] eqn:Hcsv. cbn [rows tail_error].
    destruct tail as [m |]; [discriminate |].
    destruct (List.length rs <=? 1)%nat eqn:Hlen; [discriminate |].
    destruct rs as [|headers data]; [discriminate |].
    destruct (bool_decide (headers ≠ VALID_HEADERS)) eqn:Hh; [discriminate |].
    apply bool_decide_eq_false in Hh.
    intros Hrows. exists text, data.
    assert (headers = VALID_HEADERS) as ->.
    { destruct (decide (headers = VALID_HEADERS)); [assumption |].
      contradiction. }
    split; [reflexivity |]. split; [exact Hcsv |].
    split; [intros ->; discriminate | apply validate_rows_Ok, Hrows].
  - intros (text & data & -> & -> & Hdata & Hvalid). cbn [rows tail_error].
    destruct data as [|row data]; [contradiction |]. cbn [List.length Nat.leb].
    rewrite bool_decide_eq_false_2 by (intros Hn; apply Hn; reflexivity).
    apply validate_rows_Ok, Hvalid.
Qed.


(** X6.  An upload of type text/csv within the size limit whose content
    parses without error to no row or to one row only is refused with the
    400 of the empty file, whatever that row is, and nothing is stored. *)
Theorem upload_csv_empty (f : UploadFile) w (text : str) :
  content_type f = Some (u "text/csv") ->
  (Z.of_nat (List.length (file f)) <= MAX_FILE_SIZE)%Z ->
  utf8_decode (file f) = Returns text ->
  tail_error (csv_reader text) = None ->
  (List.length (rows (csv_reader text)) <= 1)%nat ->
  upload_csv f w = (Raise (HTTPException 400 (u "CSV file is empty")), w).
Proof.
  intros Hct Hsize Hdec Htail Hlen. unfold upload_csv.
  rewrite bool_decide_eq_false_2
    by (rewrite Hct; intros Hn; apply Hn; reflexivity).
  replace (_ <? _)%Z with false by (symmetry; apply Z.ltb_ge; exact Hsize).
  unfold validate_csv. rewrite Hdec, Htail.
  replace (_ <=? 1)%nat with true by (symmetry; apply Nat.leb_le; exact Hlen).
  reflexivity.
Qed.

(** X7.  Whatever [upload_csv] answers, its status is 200, 400 or 500, and
    with a 400 the world is the one it started in: nothing is stored and no
    call is made to the outside before validation has passed. *)
Theorem upload_csv_status (f : UploadFile) w :
  (http_status (upload_csv f w).1 = 200%Z
   \/ http_status (upload_csv f w).1 = 400%Z
   \/ http_status (upload_csv f w).1 = 500%Z)
  /\ (http_status (upload_csv f w).1 = 400%Z -> (upload_csv f w).2 = w).
Proof.
  destruct (decide (content_type f = Some (u "text/csv"))) as [Hct | Hct].
  2:{ unfold upload_csv. rewrite bool_decide_eq_true_2 by exact Hct.
      simpl. auto. }
  destruct (Z.ltb_spec MAX_FILE_SIZE (Z.of_nat (List.length (file f))))
    as [Hbig | Hsize].
  { unfold upload_csv.
    rewrite bool_decide_eq_false_2
      by (rewrite Hct; intros Hn; apply Hn; reflexivity).
    replace (_ <? _)%Z with true by (symmetry; apply Z.ltb_lt; exact Hbig).
    simpl. auto. }
  destruct (validate_csv (file f)) as [[] | e] eqn:Hv.
  - destruct (upload_csv_valid f w Hct Hsize Hv)
      as [(answer & w' & ->) | (detail & w' & ->)]; simpl;
      (split; [auto | discriminate]).
  - destruct (upload_csv_invalid f w e Hv) as (e' & -> & Hstatus).
    simpl. split; [tauto | reflexivity].
Qed.

End ValidatorRows.


(** X6, witness: a file of no byte at all. *)
Lemma upload_csv_empty_witness :
  @upload_csv Fake.usual Fake.quiet (Fake.csv_upload "") Fake.start
  = (Raise (HTTPException 400 (u "CSV file is empty")), Fake.start).
Proof.
  apply (@upload_csv_empty Fake.usual Fake.quiet (Fake.csv_upload "")
           Fake.start []).
  - vm_compute. reflexivity.
  - vm_compute. discriminate.
  - vm_compute. reflexivity.
  - vm_compute. reflexivity.
  - vm_compute. lia.
Defined.

(** ** Uploads that pass validation *)

Section Stored.
Context `{Config} `{Platform}.

(** What [upload_csv] does once validation has passed, by what the two
    stores answer. *)
Lemma upload_csv_validated (f : UploadFile) w :
  content_type f = Some (u "text/csv") ->
  (Z.of_nat (List.length (file f)) <= MAX_FILE_SIZE)%Z ->
  validate_csv (file f) = Ok tt ->
  upload_csv f w
  = match s3_fault (S (clock w)) with
    | Some m =>
        (Raise (HTTPException 500
                  (u "Error occurred while writing file to S3: " ++ m)),
         mkWorld (table w) (s3 w) (background w) (S (S (clock w))))
    | None =>
        match dynamodb_fault (S (S (clock w))) with
        | Some m =>
            (Raise (HTTPException 500
                      (u "Error occurred while writing to DB: " ++ m)),
             mkWorld (table w)
               (<[csv_key (next_request_id w) := uploaded_object f]> (s3 w))
               (background w) (S (S (S (clock w)))))
        | None =>
            (Ok (u "File uploaded successfully!", next_request_id w),
             mkWorld
               (<[next_request_id w := pending (next_request_id w)]> (table w))
               (<[csv_key (next_request_id w) := uploaded_object f]> (s3 w))
               (background w ++ [next_request_id w])
               (S (S (S (clock w)))))
        end
    end.
Proof.
  intros Hct Hsize Hv. unfold upload_csv.
  rewrite bool_decide_eq_false_2
    by (rewrite Hct; intros Hn; apply Hn; reflexivity).
  replace (_ <? _)%Z with false by (symmetry; apply Z.ltb_ge; exact Hsize).
  rewrite Hv.
  unfold uuid4_hex, upload_to_s3, upload_fileobj, write_to_db, put_item,
    add_task, try_except, raise, mbind, M_bind, mret, M_ret, tick.
  cbn [clock].
  destruct (s3_fault (S (clock w))); [reflexivity |].
  cbn [clock].
  destruct (dynamodb_fault (S (S (clock w)))); reflexivity.
Qed.

Lemma get_csv_found (requestId : str) (object : s3_object) w :
  s3_fault (clock w) = None ->
  s3 w !! csv_key requestId = Some object ->
  get_csv requestId w
  = (Ok (csv_response requestId (Body object)), ticked w).
Proof.
  intros Hf Ho. unfold get_csv, try_except, get_object, mbind, M_bind, tick,
    mret, M_ret. cbn [clock]. rewrite Hf. cbv beta. cbn [s3].
  unfold csv_key in Ho. rewrite Ho. reflexivity.
Qed.

Lemma get_csv_missing (requestId : str) w :
  s3_fault (clock w) = None ->
  s3 w !! csv_key requestId = None ->
  get_csv requestId w
  = (Raise (HTTPException 404
              (u "File: " ++ requestId ++ u ".csv not found in S3")),
     ticked w).
Proof.
  intros Hf Ho. unfold get_csv, try_except, get_object, mbind, M_bind, tick,
    mret, M_ret. cbn [clock]. rewrite Hf. cbv beta. cbn [s3].
  unfold csv_key in Ho. rewrite Ho. reflexivity.
Qed.

Lemma get_csv_fault (requestId : str) w (m : str) :
  s3_fault (clock w) = Some m ->
  get_csv requestId w = (Raise (HTTPException 500 m), ticked w).
Proof.
  intros Hf. unfold get_csv, try_except, get_object, mbind, M_bind, tick,
    mret, M_ret, raise. cbn [clock]. rewrite Hf. reflexivity.
Qed.

Lemma read_from_s3_found (requestId : str) (object : s3_object) w :
  s3_fault (clock w) = None ->
  s3 w !! csv_key requestId = Some object ->
  read_from_s3 requestId w = (Ok (Body object), ticked w).
Proof.
  intros Hf Ho. unfold read_from_s3, get_object, mbind, M_bind, tick.
  cbn [clock]. rewrite Hf. cbv beta. cbn [s3].
  unfold csv_key in Ho. rewrite Ho. reflexivity.
Qed.

(** X8.  A valid upload that both stores accept is answered with the
    identifier made from the UUID; afterwards the file is in the CSV bucket
    under that identifier with its content type and file name, the job is
    recorded as Pending, and the identifier is the last task added. *)
Theorem upload_csv_accepted (f : UploadFile) w :
  content_type f = Some (u "text/csv") ->
  (Z.of_nat (List.length (file f)) <= MAX_FILE_SIZE)%Z ->
  validate_csv (file f) = Ok tt ->
  s3_fault (S (clock w)) = None ->
  dynamodb_fault (S (S (clock w))) = None ->
  exists w',
    upload_csv f w
    = (Ok (u "File uploaded successfully!", next_request_id w), w')
    /\ s3 w' !! csv_key (next_request_id w) = Some (uploaded_object f)
    /\ table w' !! next_request_id w = Some (pending (next_request_id w))
    /\ background w' = background w ++ [next_request_id w].
Proof.
  intros Hct Hsize Hv Hs3 Hdb.
  rewrite (upload_csv_validated f w Hct Hsize Hv), Hs3, Hdb.
  eexists. split; [reflexivity |]. cbn [s3 table background].
  split; [apply lookup_insert_eq |]. split; [apply lookup_insert_eq |].
  reflexivity.
Qed.

(** X9.  Right after an accepted upload, and with stores that answer, the
    status of the job is the Pending record, with status 200, and the
    download is the file as it was uploaded. *)
Theorem upload_csv_then_read (f : UploadFile) w w' (answer : str * str) :
  upload_csv f w = (Ok answer, w') ->
  (dynamodb_fault (clock w') = None ->
   get_status answer.2 w' = (Ok (pending answer.2), ticked w'))
  /\ (s3_fault (clock w') = None ->
      get_csv answer.2 w' = (Ok (csv_response answer.2 (file f)), ticked w')
      /\ read_from_s3 answer.2 w' = (Ok (file f), ticked w')).
Proof.
  intros Hup.
  assert (Hw : table w' !! answer.2 = Some (pending answer.2)
               /\ s3 w' !! csv_key answer.2 = Some (uploaded_object f)).
  { destruct (decide (content_type f = Some (u "text/csv"))) as [Hct | Hct].
    2:{ unfold upload_csv in Hup.
        rewrite bool_decide_eq_true_2 in Hup by exact Hct. discriminate. }
    destruct (Z.ltb_spec MAX_FILE_SIZE (Z.of_nat (List.length (file f))))
      as [Hbig | Hsize].
    { unfold upload_csv in Hup.
      rewrite bool_decide_eq_false_2 in Hup
        by (rewrite Hct; intros Hn; apply Hn; reflexivity).
      replace (_ <? _)%Z with true in Hup
        by (symmetry; apply Z.ltb_lt; exact Hbig).
      discriminate. }
    destruct (validate_csv (file f)) as [[] | e] eqn:Hv.
    2:{ destruct (upload_csv_invalid f w e Hv) as (e' & He' & _).
        rewrite He' in Hup. discriminate. }
    rewrite (upload_csv_validated f w Hct Hsize Hv) in Hup.
    destruct (s3_fault (S (clock w))); [discriminate |].
    destruct (dynamodb_fault (S (S (clock w)))); [discriminate |].
    injection Hup as <- <-. cbn [snd table s3].
    split; apply lookup_insert_eq. }
  destruct Hw as [Htable Hs3]. split.
  - intros Hdb. apply get_status_found; assumption.
  - intros Hf. split.
    + apply (get_csv_found _ (uploaded_object f)); assumption.
    + apply (read_from_s3_found _ (uploaded_object f)); assumption.
Qed.

(** X10.  When a store fails after validation has passed, the answer is a
    500 and no job is recorded and no task added.  If it is the bucket that
    failed, nothing is stored; if it is the jobs table, the file stays in
    the bucket under an identifier that no record names. *)
Theorem upload_csv_storage_failure (f : UploadFile) w :
  content_type f = Some (u "text/csv") ->
  (Z.of_nat (List.length (file f)) <= MAX_FILE_SIZE)%Z ->
  validate_csv (file f) = Ok tt ->
  (forall m, s3_fault (S (clock w)) = Some m ->
     exists w',
       upload_csv f w
       = (Raise (HTTPException 500
                   (u "Error occurred while writing file to S3: " ++ m)), w')
       /\ s3 w' = s3 w /\ table w' = table w
       /\ background w' = background w)
  /\ (forall m, s3_fault (S (clock w)) = None ->
        dynamodb_fault (S (S (clock w))) = Some m ->
        exists w',
          upload_csv f w
          = (Raise (HTTPException 500
                      (u "Error occurred while writing to DB: " ++ m)), w')
          /\ s3 w' !! csv_key (next_request_id w) = Some (uploaded_object f)
          /\ table w' = table w
          /\ background w' = background w).
Proof.
  intros Hct Hsize Hv. split.
  - intros m Hs3. rewrite (upload_csv_validated f w Hct Hsize Hv), Hs3.
    eexists. split; [reflexivity |]. auto.
  - intros m Hs3 Hdb.
    rewrite (upload_csv_validated f w Hct Hsize Hv), Hs3, Hdb.
    eexists. split; [reflexivity |]. cbn [s3 table background].
    split; [apply lookup_insert_eq | auto].
Qed.

(** X11.  [get_csv] answers 404 exactly when the bucket answers and holds
    nothing under the job's key, 200 exactly when the bucket answers and
    holds an object there, whose bytes it then returns, and 500 exactly when
    the bucket fails; it changes nothing but the count of calls. *)
Theorem get_csv_answers (requestId : str) w :
  (http_status (get_csv requestId w).1 = 404%Z
   <-> s3_fault (clock w) = None /\ s3 w !! csv_key requestId = None)
  /\ (http_status (get_csv requestId w).1 = 200%Z
      <-> s3_fault (clock w) = None
          /\ exists object,
               s3 w !! csv_key requestId = Some object
               /\ (get_csv requestId w).1
                  = Ok (csv_response requestId (Body object)))
  /\ (http_status (get_csv requestId w).1 = 500%Z
      <-> s3_fault (clock w) <> None)
  /\ (get_csv requestId w).2 = ticked w.
Proof.
  destruct (s3_fault (clock w)) as [m |] eqn:Hf.
  - rewrite (get_csv_fault _ _ _ Hf). simpl.
    split; [split; [discriminate | intros [Hn _]; discriminate] |].
    split; [split; [discriminate | intros [Hn _]; discriminate] |].
    split; [split; [intros _; discriminate | reflexivity] | reflexivity].
  - destruct (s3 w !! csv_key requestId) as [object |] eqn:Ho.
    + rewrite (get_csv_found _ _ _ Hf Ho). simpl.
      split; [split; [discriminate | intros [_ Hn]; discriminate] |].
      split; [split; [| reflexivity] |].
      { intros _. split; [reflexivity | exists object; auto]. }
      split; [split; [discriminate | intros Hn; contradiction] | reflexivity].
    + rewrite (get_csv_missing _ _ Hf Ho). simpl.
      split; [split; auto |].
      split; [split; [discriminate |] |].
      { intros [_ (object & Hn & _)]. discriminate. }
      split; [split; [discriminate | intros Hn; contradiction] | reflexivity].
Qed.

(** X12.  [get_status] never answers 404: its status is 200 exactly when
    the jobs table answers and holds a record for the identifier, which it
    then returns, and 500 in every other case, the missing record
    included; it changes nothing but the count of calls. *)
Theorem get_status_answers (requestId : str) w :
  (http_status (get_status requestId w).1 = 200%Z
   <-> dynamodb_fault (clock w) = None
       /\ exists item, table w !! requestId = Some item
            /\ (get_status requestId w).1 = Ok item)
  /\ (http_status (get_status requestId w).1 = 500%Z
      <-> dynamodb_fault (clock w) <> None \/ table w !! requestId = None)
  /\ http_status (get_status requestId w).1 <> 404%Z
  /\ (get_status requestId w).2 = ticked w.
Proof.
  destruct (dynamodb_fault (clock w)) as [m |] eqn:Hf.
  - rewrite (get_status_store_failure _ _ _ Hf). simpl.
    split; [split; [discriminate | intros [Hn _]; discriminate] |].
    split; [split; [intros _; left; discriminate | reflexivity] |].
    split; [discriminate | reflexivity].
  - destruct (table w !! requestId) as [item |] eqn:Hitem.
    + rewrite (get_status_found _ _ _ Hf Hitem). simpl.
      split; [split; [| reflexivity] |].
      { intros _. split; [reflexivity | exists item; auto]. }
      split; [split; [discriminate |] |].
      { intros [Hn | Hn]; [contradiction | discriminate]. }
      split; [discriminate | reflexivity].
    + rewrite (get_status_unknown _ _ Hf Hitem). simpl.
      split; [split; [discriminate |] |].
      { intros [_ (item & Hn & _)]. discriminate. }
      split; [split; [intros _; right; reflexivity | reflexivity] |].
      split; [discriminate | reflexivity].
Qed.

(** X13.  What [write_to_db] stored, [get_status] returns: after a
    successful write of an item, and with a jobs table that answers, the
    status of that item's identifier is the item, whatever was recorded
    before. *)
Theorem write_then_get_status (item : Item) w w1 :
  write_to_db item w = (Ok tt, w1) ->
  dynamodb_fault (clock w1) = None ->
  get_status (requestId item) w1 = (Ok item, ticked w1).
Proof.
  intros Hwrite Hf.
  destruct (write_to_db_cases item w) as [[_ Hw] | (m & _ & Hw)];
    rewrite Hw in Hwrite; [| discriminate].
  injection Hwrite as <-. apply get_status_found; [exact Hf |].
  cbn [table]. apply lookup_insert_eq.
Qed.

(** X14.  What [upload_to_s3] stored, [read_from_s3] returns, for the
    upload of a new file and for the replacement by a result alike. *)
Theorem upload_to_s3_then_read (requestId : str) w w1 :
  s3_fault (clock w1) = None ->
  (forall f : UploadFile,
     upload_to_s3 false f requestId w = (Ok tt, w1) ->
     read_from_s3 requestId w1 = (Ok (file f), ticked w1))
  /\ (forall document : bytes,
        upload_to_s3 true document requestId w = (Ok tt, w1) ->
        read_from_s3 requestId w1 = (Ok document, ticked w1)).
Proof.
  intros Hf. split.
  - intros f Hup.
    apply (read_from_s3_found _ (uploaded_object f)); [exact Hf |].
    revert Hup. unfold upload_to_s3, try_except, raise, upload_fileobj,
      mbind, M_bind, tick. cbn [clock].
    destruct (s3_fault (clock w)); [discriminate |].
    intros Hup. cbv beta in Hup. injection Hup as <-.
    cbn [s3]. apply lookup_insert_eq.
  - intros document Hup.
    apply upload_to_s3_replace_Ok in Hup as [Hs3 _].
    apply (read_from_s3_found _
             (mkObject document [(u "Content-Type", Some (u "text/csv"))]));
      [exact Hf |].
    rewrite Hs3. apply lookup_insert_eq.
Qed.

End Stored.

(** ** The transformer, step by step *)

Section Fetch.
Context `{Config} `{Platform}.

(** X15.  When the fetch fails, or when the response has a status from 400
    to 599, [compress_image] raises at once, with the message of the fetch
    or of [raise_for_status]: the body is not decoded and nothing is
    stored. *)
Theorem compress_image_fetch_error (url : str) w :
  (forall m, requests_get (clock w) url = Fails m ->
     compress_image url w = (Raise (Error m), ticked w))
  /\ (forall r, requests_get (clock w) url = Returns r ->
        (400 <= response_status r < 600)%Z ->
        compress_image url w
        = (Raise (Error (http_error_str (response_status r) url)),
           ticked w)).
Proof.
  split.
  - intros m Hget. unfold compress_image, get, mbind, M_bind, tick, lift.
    cbn [clock]. rewrite Hget. reflexivity.
  - intros r Hget [Hlo Hhi].
    unfold compress_image, get, raise_for_status, mbind, M_bind, tick, lift,
      raise.
    cbn [clock]. rewrite Hget. cbn [of_answer].
    replace (400 <=? response_status r)%Z with true
      by (symmetry; apply Z.leb_le; exact Hlo).
    replace (response_status r <? 600)%Z with true
      by (symmetry; apply Z.ltb_lt; exact Hhi).
    reflexivity.
Qed.

(** X16.  [compress_image] stores at most one object, in the image bucket,
    and only when it returns: the URL it returns is the address of that
    object's key.  When it raises, the buckets are as before.  It never
    writes the jobs table. *)
Theorem compress_image_stores (url : str) w (r : result str) w' :
  compress_image url w = (r, w') ->
  table w' = table w
  /\ match r with
     | Raise _ => s3 w' = s3 w
     | Ok new =>
         exists (key : str) (object : s3_object),
           s3 w' = <[(AWS_IMAGE_BUCKET, key) := object]> (s3 w)
           /\ new = u "https://" ++ AWS_IMAGE_BUCKET ++ u ".s3." ++ AWS_REGION
                      ++ u ".amazonaws.com/" ++ key
     end.
Proof.
  unfold compress_image, get, raise_for_status, upload_image_to_s3,
    uuid4_hex, upload_fileobj, try_except, mbind, M_bind, mret, M_ret, tick,
    lift, raise.
  cbn [clock].
  destruct (requests_get (clock w) url) as [resp | m]; cbn [of_answer];
    [| intros Heq; injection Heq as <- <-; auto].
  destruct ((400 <=? response_status resp)%Z && (response_status resp <? 600)%Z);
    [intros Heq; injection Heq as <- <-; auto |].
  destruct (Image_open (content resp)) as [img | m]; cbn [of_answer];
    [| intros Heq; injection Heq as <- <-; auto].
  destruct (Image_save img (save_arguments (format img))) as [out | m];
    cbn [of_answer];
    [| intros Heq; injection Heq as <- <-; auto].
  cbn [clock].
  destruct (s3_fault (S (S (clock w)))) as [m |];
    intros Heq; cbv beta in Heq; injection Heq as <- <-; cbn [table s3];
    [auto |].
  split; [reflexivity |]. eexists _, _. split; reflexivity.
Qed.

Lemma for_each_stops {A B : Type} (f : A -> M B) (pre post : list A)
    (x : A) w (ys : list B) w1 (e : exn) w2 :
  for_each f pre w = (Ok ys, w1) ->
  f x w1 = (Raise e, w2) ->
  for_each f (pre ++ x :: post) w = (Raise e, w2).
Proof.
  revert w ys. induction pre as [|p pre IH]; intros w ys; simpl.
  - intros Heq Hx. injection Heq as _ <-.
    apply bind_Raise. left. exact Hx.
  - intros Heq Hx. apply bind_Ok in Heq as (y & wa & Hy & Heq).
    apply bind_Ok in Heq as (ys' & wb & Hys & Heq).
    injection Heq as _ <-.
    apply bind_Raise. right. exists y, wa. split; [exact Hy |].
    apply bind_Raise. left. eapply IH; eassumption.
Qed.

(** X17.  A row is processed entry by entry, and the first entry whose
    transformation raises ends it with that exception, in the world that
    failure left: the entries after it are not fetched, and what the
    entries before it did is not undone. *)
Theorem process_row_first_failure (row : list str) (field : str)
    (pre post : list str) (url : str) w (uploaded : list str) w1
    (e : exn) w2 :
  row !! 2%nat = Some field ->
  PyStr.split (chr ",") field = pre ++ url :: post ->
  for_each compress_image pre w = (Ok uploaded, w1) ->
  compress_image url w1 = (Raise e, w2) ->
  process_row row w = (Raise e, w2).
Proof.
  intros Hfield Hsplit Hpre Hurl.
  unfold process_row. rewrite Hfield, Hsplit.
  apply bind_Raise. left. eapply for_each_stops; eassumption.
Qed.

Lemma filter_all {A : Type} (p : A -> bool) (l : list A) :
  Forall (fun x => p x = true) l -> List.filter p l = l.
Proof.
  induction 1 as [|x l Hx _ IH]; simpl; [reflexivity |].
  rewrite Hx, IH. reflexivity.
Qed.

(** X18.  From a UUID in its usual writing, five groups of 8, 4, 4, 4 and
    12 characters joined by dashes, the identifier is the 32 characters of
    the groups, in order and without a dash. *)
Theorem uuid4_hex_canonical w (a b c d e : str) :
  uuid4 (clock w)
  = a ++ u "-" ++ b ++ u "-" ++ c ++ u "-" ++ d ++ u "-" ++ e ->
  List.length a = 8%nat -> List.length b = 4%nat -> List.length c = 4%nat ->
  List.length d = 4%nat -> List.length e = 12%nat ->
  Forall (fun x => x <> chr "-") (a ++ b ++ c ++ d ++ e) ->
  uuid4_hex w = (Ok (a ++ b ++ c ++ d ++ e), ticked w)
  /\ List.length (a ++ b ++ c ++ d ++ e) = 32%nat.
Proof.
  intros Huuid Ha Hb Hc Hd He Hdash. split.
  - unfold uuid4_hex, mbind, M_bind, tick, mret, M_ret. cbn [clock].
    rewrite Huuid. f_equal. f_equal.
    assert (Hkeep : forall l, Forall (fun x => x <> chr "-") l ->
              List.filter (fun c => negb (c =? chr "-")%N) l = l).
    { intros l Hl. apply filter_all. eapply List.Forall_impl; [| exact Hl].
      intros x Hx. cbv beta. destruct (N.eqb_spec x (chr "-")); [contradiction |].
      reflexivity. }
    apply Forall_app in Hdash as [Hfa Hdash].
    apply Forall_app in Hdash as [Hfb Hdash].
    apply Forall_app in Hdash as [Hfc Hdash].
    apply Forall_app in Hdash as [Hfd Hfe].
    change (u "-") with [chr "-"].
    rewrite !List.filter_app. cbn [List.filter].
    change (chr "-" =? chr "-")%N with true. cbn [negb app].
    rewrite !Hkeep by assumption. reflexivity.
  - rewrite !length_app. lia.
Qed.

End Fetch.

(** ** The reach of a run *)

Section Reach.
Context `{Config} `{Platform}.
Variable job : str.

Lemma within_job_preorder : PreOrder (within_job job).
Proof.
  split.
  - intros w. unfold within_job. auto.
  - intros w1 w2 w3 (Ht1 & Hs1 & Hb1 & Hc1) (Ht2 & Hs2 & Hb2 & Hc2).
    unfold within_job. repeat split.
    + intros key Hk. rewrite Ht2, Ht1 by assumption. reflexivity.
    + intros bucket key Hb Hk. rewrite Hs2, Hs1 by assumption. reflexivity.
    + congruence.
    + lia.
Qed.

#[local] Existing Instance within_job_preorder.

(** A call that changed neither store nor the task list. *)
Lemma within_job_call w w' :
  table w' = table w -> s3 w' = s3 w -> background w' = background w ->
  (clock w <= clock w')%nat ->
  within_job job w w'.
Proof.
  intros Ht Hs Hb Hc. unfold within_job. rewrite Ht, Hs, Hb. auto.
Qed.

Lemma within_job_put_item (status : str) :
  preserves (within_job job) (put_item (mkItem job status)).
Proof.
  intros w r w'. unfold put_item, mbind, M_bind, tick, raise. cbn [clock].
  destruct (dynamodb_fault (clock w)); intros Heq; cbv beta in Heq;
    injection Heq as _ <-.
  - apply within_job_call; cbn; auto.
  - unfold within_job. cbn [table s3 background clock requestId].
    repeat split; auto.
    intros key Hk. apply lookup_insert_ne. congruence.
Qed.

Lemma within_job_write_to_db (status : str) :
  preserves (within_job job) (write_to_db (mkItem job status)).
Proof.
  unfold write_to_db.
  apply preserves_try; [apply within_job_put_item |].
  intros e. apply preserves_raise.
Qed.

Lemma within_job_get_object (bucket key : str) :
  preserves (within_job job) (get_object bucket key).
Proof.
  intros w r w'. unfold get_object, mbind, M_bind, tick, raise. cbn [clock].
  destruct (s3_fault (clock w)); intros Heq; cbv beta in Heq;
    cbn [s3] in Heq; [| destruct (s3 w !! (bucket, key))];
    injection Heq as _ <-; apply within_job_call; cbn; auto.
Qed.

Lemma within_job_get (url : str) : preserves (within_job job) (get url).
Proof.
  intros w r w'. unfold get, mbind, M_bind, tick, lift.
  intros Heq. injection Heq as _ <-. apply within_job_call; cbn; auto.
Qed.

Lemma within_job_uuid4_hex : preserves (within_job job) uuid4_hex.
Proof.
  intros w r w'. unfold uuid4_hex, mbind, M_bind, tick, mret, M_ret.
  intros Heq. injection Heq as _ <-. apply within_job_call; cbn; auto.
Qed.

(** A write to the image bucket, or to the job's own document. *)
Lemma within_job_upload_fileobj (body : bytes) (bucket key : str)
    (metadata : list (str * option str)) :
  bucket = AWS_IMAGE_BUCKET \/ (bucket, key) = csv_key job ->
  preserves (within_job job) (upload_fileobj body bucket key metadata).
Proof.
  intros Hwhere w r w'. unfold upload_fileobj, mbind, M_bind, tick, raise.
  cbn [clock]. destruct (s3_fault (clock w)); intros Heq; cbv beta in Heq;
    injection Heq as _ <-.
  - apply within_job_call; cbn; auto.
  - unfold within_job. cbn [table s3 background clock].
    repeat split; auto.
    intros b k Hb Hk. apply lookup_insert_ne.
    destruct Hwhere as [-> | Hcsv]; congruence.
Qed.

Lemma within_job_compress_image (url : str) :
  preserves (within_job job) (compress_image url).
Proof.
  unfold compress_image, raise_for_status, upload_image_to_s3.
  apply preserves_bind; [apply within_job_get |]. intros r.
  apply preserves_bind;
    [destruct (_ && _); [apply preserves_raise | apply preserves_ret] |].
  intros _.
  apply preserves_bind; [apply preserves_lift |]. intros img.
  apply preserves_bind; [apply preserves_lift |]. intros output_io.
  apply preserves_bind; [apply within_job_uuid4_hex |]. intros hex.
  apply preserves_try.
  - apply preserves_bind.
    + apply within_job_upload_fileobj. left. reflexivity.
    + intros _. apply preserves_ret.
  - intros e. apply preserves_raise.
Qed.

Lemma within_job_process_row (row : list str) :
  preserves (within_job job) (process_row row).
Proof.
  unfold process_row. destruct (row !! 2%nat); [| apply preserves_raise].
  apply preserves_bind;
    [apply preserves_for_each, within_job_compress_image |].
  intros urls. apply preserves_ret.
Qed.

Lemma within_job_process_body : preserves (within_job job) (process_body job).
Proof.
  unfold process_body, write_result, build_csv, read_from_s3, upload_to_s3.
  apply preserves_bind.
  - apply preserves_bind.
    + apply preserves_bind; [apply within_job_write_to_db |]. intros _.
      apply preserves_bind; [apply within_job_get_object |]. intros content.
      apply preserves_bind; [apply preserves_lift |]. intros text.
      cbv zeta. destruct (rows (csv_reader text)); [apply preserves_raise |].
      apply preserves_bind;
        [apply preserves_for_each, within_job_process_row |].
      intros processed.
      destruct (tail_error (csv_reader text));
        [apply preserves_raise | apply preserves_lift].
    + intros document. apply preserves_try.
      * apply within_job_upload_fileobj. right. reflexivity.
      * intros e. apply preserves_raise.
  - intros _. apply within_job_write_to_db.
Qed.

(** X19.  A run for one job leaves every other job alone: the records of
    the other identifiers, the objects of every bucket but the image bucket
    and the job's own document, and the list of tasks are at the end what
    they were at the start, whatever happened in between. *)
Theorem process_file_within_job w (r : result unit) w' :
  process_file job w = (r, w') ->
  (forall other, other <> job -> table w' !! other = table w !! other)
  /\ (forall bucket key,
        bucket <> AWS_IMAGE_BUCKET -> (bucket, key) <> csv_key job ->
        s3 w' !! (bucket, key) = s3 w !! (bucket, key))
  /\ background w' = background w.
Proof.
  intros Hrun.
  assert (Hin : within_job job w w').
  { revert Hrun. apply preserves_try.
    - apply within_job_process_body.
    - intros e. apply within_job_write_to_db. }
  destruct Hin as (Ht & Hs & Hb & _). auto.
Qed.

End Reach.

(** ** How a run ends *)

Section Ending.
Context `{Config} `{Platform}.

(** X20.  With a jobs table that answers every call, a run always returns,
    and the job's status is then the Completed one, after a body that went
    through, or the Failed one with the reason of the exception that
    stopped the body. *)
Theorem process_file_terminal (requestId : str) w :
  (forall t, dynamodb_fault t = None) ->
  exists w',
    process_file requestId w = (Ok tt, w')
    /\ ((process_body requestId w).1 = Ok tt
        /\ table w' !! requestId = Some (completed requestId)
        \/ exists e, (process_body requestId w).1 = Raise e
             /\ table w' !! requestId = Some (failed requestId e)).
Proof.
  intros Hdb.
  destruct (process_body requestId w) as [[[] | e] w1] eqn:Hbody.
  - exists w1. split.
    + unfold process_file. apply try_except_Ok. exact Hbody.
    + left. split; [reflexivity |].
      apply process_body_Ok in Hbody as (_ & _ & _ & _ & Ht). exact Ht.
  - eexists. split.
    + unfold process_file. rewrite (try_except_Raise _ _ w e w1 Hbody).
      apply (write_to_db_ok (failed requestId e)), Hdb.
    + right. exists e. split; [reflexivity |].
      cbn [table]. apply lookup_insert_eq.
Qed.

End Ending.

Section Failing.
Context `{Config} `{Platform}.

Lemma read_from_s3_missing (requestId : str) w :
  s3_fault (clock w) = None ->
  s3 w !! csv_key requestId = None ->
  read_from_s3 requestId w
  = (Raise (NoSuchKey (requestId ++ u ".csv")), ticked w).
Proof.
  intros Hf Ho. unfold read_from_s3, get_object, mbind, M_bind, tick.
  cbn [clock]. rewrite Hf. cbv beta. cbn [s3].
  unfold csv_key in Ho. rewrite Ho. reflexivity.
Qed.

(** A body that raises, answered by a write that goes through. *)
Lemma process_file_fails (requestId : str) w (e : exn) w1 :
  process_body requestId w = (Raise e, w1) ->
  dynamodb_fault (clock w1) = None ->
  process_file requestId w
  = (Ok tt, mkWorld (<[requestId := failed requestId e]> (table w1)) (s3 w1)
                    (background w1) (S (clock w1))).
Proof.
  intros Hbody Hdb. unfold process_file.
  rewrite (try_except_Raise _ _ w e w1 Hbody).
  apply (write_to_db_ok (failed requestId e)), Hdb.
Qed.

(** The body up to the read of the document, with stores that answer. *)
Lemma build_csv_read (requestId : str) w (k : bytes -> M bytes) :
  dynamodb_fault (clock w) = None ->
  (write_to_db (in_progress requestId);;
   file_content ← read_from_s3 requestId; k file_content) w
  = (file_content ← read_from_s3 requestId; k file_content)
      (mkWorld (<[requestId := in_progress requestId]> (table w)) (s3 w)
               (background w) (S (clock w))).
Proof.
  intros Hdb. unfold mbind at 1, M_bind at 1.
  rewrite (write_to_db_ok (in_progress requestId) w Hdb). reflexivity.
Qed.

(** X21.  A run for an identifier under which the CSV bucket holds nothing
    ends, with stores that answer, in the Failed status whose reason is the
    missing key; the buckets are not touched. *)
Theorem process_file_missing_document (requestId : str) w :
  dynamodb_fault (clock w) = None ->
  s3_fault (S (clock w)) = None ->
  s3 w !! csv_key requestId = None ->
  dynamodb_fault (S (S (clock w))) = None ->
  exists w',
    process_file requestId w = (Ok tt, w')
    /\ table w' !! requestId
       = Some (failed requestId (NoSuchKey (requestId ++ u ".csv")))
    /\ s3 w' = s3 w.
Proof.
  intros Hdb Hs3 Hnone Hdb2.
  assert (Hbody : process_body requestId w
                  = (Raise (NoSuchKey (requestId ++ u ".csv")),
                     mkWorld (<[requestId := in_progress requestId]> (table w))
                             (s3 w) (background w) (S (S (clock w))))).
  { unfold process_body, write_result.
    apply bind_Raise. left. apply bind_Raise. left.
    unfold build_csv. fold (in_progress requestId).
    rewrite build_csv_read by exact Hdb.
    apply bind_Raise. left.
    rewrite read_from_s3_missing by assumption. reflexivity. }
  rewrite (process_file_fails _ _ _ _ Hbody) by exact Hdb2.
  eexists. split; [reflexivity |]. cbn [table s3].
  split; [apply lookup_insert_eq | reflexivity].
Qed.

(** X22.  A run over a document in which the reader finds no row ends, with
    stores that answer, in the Failed status; its reason is the reader's
    error if it stopped with one and is empty otherwise, [next] then raising
    a [StopIteration] without message.  The document is not touched. *)
Theorem process_file_no_rows (requestId : str) w (object : s3_object)
    (text : str) :
  dynamodb_fault (clock w) = None ->
  s3_fault (S (clock w)) = None ->
  s3 w !! csv_key requestId = Some object ->
  utf8_decode (Body object) = Returns text ->
  rows (csv_reader text) = [] ->
  dynamodb_fault (S (S (clock w))) = None ->
  exists w',
    process_file requestId w = (Ok tt, w')
    /\ table w' !! requestId
       = Some (mkItem requestId
                 (u "Processing failed due to "
                    ++ default [] (tail_error (csv_reader text)) ++ u "!"))
    /\ s3 w' = s3 w.
Proof.
  intros Hdb Hs3 Ho Hdec Hrows Hdb2.
  assert (Hbody : process_body requestId w
                  = (Raise (Error (default [] (tail_error (csv_reader text)))),
                     mkWorld (<[requestId := in_progress requestId]> (table w))
                             (s3 w) (background w) (S (S (clock w))))).
  { unfold process_body, write_result.
    apply bind_Raise. left. apply bind_Raise. left.
    unfold build_csv. fold (in_progress requestId).
    rewrite build_csv_read by exact Hdb.
    apply bind_Raise. right. eexists _, _. split.
    { apply read_from_s3_found; [exact Hs3 | exact Ho]. }
    unfold mbind, M_bind, lift. rewrite Hdec. cbn [of_answer].
    cbv zeta. rewrite Hrows. reflexivity. }
  rewrite (process_file_fails _ _ _ _ Hbody) by exact Hdb2.
  eexists. split; [reflexivity |]. cbn [table s3].
  split; [apply lookup_insert_eq | reflexivity].
Qed.

(** X23.  After a run that ended with the Completed status, and with a
    bucket that answers, the download is the document [csv.writer] made of
    the one-cell header row and the processed rows. *)
Theorem process_file_then_download (requestId : str) w w' :
  process_file requestId w = (Ok tt, w') ->
  table w' !! requestId = Some (completed requestId) ->
  s3_fault (clock w') = None ->
  exists (headers : list str) (processed : list (list cell))
         (document : bytes),
    csv_writerows
      ([StrList (headers ++ [u "Output Image Urls"])] :: processed)
    = Returns document
    /\ get_csv requestId w'
       = (Ok (csv_response requestId document), ticked w').
Proof.
  intros Hrun Hstatus Hs3.
  destruct (process_file_header_row requestId w w' Hrun Hstatus)
    as (original & text & headers & data & processed & document & _ & _ & _
        & Hwrite & Hdoc).
  exists headers, processed, document. split; [exact Hwrite |].
  destruct (s3 w' !! csv_key requestId) as [object |] eqn:Ho;
    [| discriminate].
  injection Hdoc as <-. apply get_csv_found; assumption.
Qed.

Lemma split_without_sep (sep : N) (s : str) :
  ~ In sep s -> PyStr.split sep s = [s].
Proof.
  induction s as [|c t IH]; intros Hn; simpl; [reflexivity |].
  destruct (N.eqb_spec c sep) as [-> | Hc].
  - exfalso. apply Hn. left. reflexivity.
  - rewrite IH; [reflexivity |]. intros Hi. apply Hn. right. exact Hi.
Qed.

(** X24.  For an identifier without a slash, the download is offered under
    the file name made of the identifier and [.csv]. *)
Theorem get_csv_file_name (requestId : str) (object : s3_object) w :
  s3_fault (clock w) = None ->
  s3 w !! csv_key requestId = Some object ->
  ~ In (chr "/") requestId ->
  get_csv requestId w
  = (Ok (mkStreaming (Body object) (u "text/csv")
           [(u "Content-Disposition",
             u "attachment; filename=" ++ requestId ++ u ".csv")]),
     ticked w).
Proof.
  intros Hf Ho Hslash. rewrite (get_csv_found _ _ _ Hf Ho).
  unfold csv_response. rewrite split_without_sep; [reflexivity |].
  intros Hin. apply in_app_or in Hin as [Hin | Hin]; [contradiction |].
  vm_compute in Hin. intuition discriminate.
Qed.

End Failing.

(** ** More runs on the in-memory platform *)

(** X8, witness: the scenario upload. *)
Lemma upload_csv_accepted_witness :
  exists w',
    @upload_csv Fake.usual Fake.quiet Fake.scenario Fake.start
    = (Ok (u "File uploaded successfully!",
           @next_request_id Fake.quiet Fake.start), w')
    /\ s3 w' !! @csv_key Fake.usual (@next_request_id Fake.quiet Fake.start)
       = Some (uploaded_object Fake.scenario)
    /\ table w' !! @next_request_id Fake.quiet Fake.start
       = Some (pending (@next_request_id Fake.quiet Fake.start))
    /\ background w'
       = background Fake.start ++ [@next_request_id Fake.quiet Fake.start].
Proof.
  apply (@upload_csv_accepted Fake.usual Fake.quiet Fake.scenario Fake.start).
  - vm_compute. reflexivity.
  - vm_compute. discriminate.
  - vm_compute. reflexivity.
  - vm_compute. reflexivity.
  - vm_compute. reflexivity.
Defined.

(** X9, witness: status and download right after the scenario upload. *)
Lemma upload_csv_then_read_witness :
  @get_status Fake.quiet Fake.first_id (Fake.after_upload Fake.scenario)
  = (Ok (pending Fake.first_id), ticked (Fake.after_upload Fake.scenario))
  /\ @get_csv Fake.usual Fake.quiet Fake.first_id
       (Fake.after_upload Fake.scenario)
     = (Ok (csv_response Fake.first_id (file Fake.scenario)),
        ticked (Fake.after_upload Fake.scenario)).
Proof.
  destruct (@upload_csv_then_read Fake.usual Fake.quiet Fake.scenario
              Fake.start (Fake.after_upload Fake.scenario)
              (u "File uploaded successfully!", Fake.first_id))
    as [Hstatus Hdownload].
  - vm_compute. reflexivity.
  - split.
    + apply Hstatus. vm_compute. reflexivity.
    + apply Hdownload. vm_compute. reflexivity.
Defined.

(** X10, witness: the jobs table refuses the Pending record. *)
Lemma upload_csv_storage_failure_witness :
  exists w',
    @upload_csv Fake.usual Fake.refusing Fake.scenario Fake.start
    = (Raise (HTTPException 500
                (u "Error occurred while writing to DB: "
                   ++ u "ProvisionedThroughputExceededException")), w')
    /\ s3 w' !! @csv_key Fake.usual (@next_request_id Fake.refusing Fake.start)
       = Some (uploaded_object Fake.scenario)
    /\ table w' = table Fake.start
    /\ background w' = background Fake.start.
Proof.
  destruct (@upload_csv_storage_failure Fake.usual Fake.refusing
              Fake.scenario Fake.start) as [_ Htable].
  - vm_compute. reflexivity.
  - vm_compute. discriminate.
  - vm_compute. reflexivity.
  - apply Htable.
    + vm_compute. reflexivity.
    + vm_compute. reflexivity.
Defined.

(** X13, witness: a record written into the empty table. *)
Lemma write_then_get_status_witness :
  @get_status Fake.quiet (u "abc")
    (@write_to_db Fake.quiet (pending (u "abc")) Fake.start).2
  = (Ok (pending (u "abc")),
     ticked (@write_to_db Fake.quiet (pending (u "abc")) Fake.start).2).
Proof.
  apply (@write_then_get_status Fake.quiet (pending (u "abc")) Fake.start).
  - vm_compute. reflexivity.
  - vm_compute. reflexivity.
Defined.

(** X14, witness: a result written over the scenario upload. *)
Lemma upload_to_s3_then_read_witness :
  @read_from_s3 Fake.usual Fake.quiet Fake.first_id
    (@upload_to_s3 Fake.usual Fake.quiet true (Fake.b "new") Fake.first_id
       (Fake.after_upload Fake.scenario)).2
  = (Ok (Fake.b "new"),
     ticked (@upload_to_s3 Fake.usual Fake.quiet true (Fake.b "new")
               Fake.first_id (Fake.after_upload Fake.scenario)).2).
Proof.
  destruct (@upload_to_s3_then_read Fake.usual Fake.quiet Fake.first_id
              (Fake.after_upload Fake.scenario)
              (@upload_to_s3 Fake.usual Fake.quiet true (Fake.b "new")
                 Fake.first_id (Fake.after_upload Fake.scenario)).2)
    as [_ Hreplace].
  - vm_compute. reflexivity.
  - apply Hreplace. vm_compute. reflexivity.
Defined.

(** X15, witness: a page that answers 404, and one that is not served. *)
Lemma compress_image_fetch_error_witness :
  @compress_image Fake.usual Fake.quiet (u "http://example.com/gone.jpg")
    Fake.start
  = (Raise (Error (u "404 Error for url: http://example.com/gone.jpg")),
     ticked Fake.start)
  /\ @compress_image Fake.usual Fake.quiet
       (u "http://example.com/missing.jpg") Fake.start
     = (Raise (Error (u "Connection refused")), ticked Fake.start).
Proof.
  split.
  - apply (proj2 (@compress_image_fetch_error Fake.usual Fake.quiet
                    (u "http://example.com/gone.jpg") Fake.start)
             (mkResponse 404 [])).
    + vm_compute. reflexivity.
    + cbn [response_status]. lia.
  - apply (proj1 (@compress_image_fetch_error Fake.usual Fake.quiet
                    (u "http://example.com/missing.jpg") Fake.start)).
    vm_compute. reflexivity.
Defined.

(** X16, witness: the GIF page. *)
Lemma compress_image_stores_witness :
  table (@compress_image Fake.usual Fake.quiet
           (u "http://example.com/c.gif") Fake.start).2
  = table Fake.start
  /\ exists (key : str) (object : s3_object),
       s3 (@compress_image Fake.usual Fake.quiet
             (u "http://example.com/c.gif") Fake.start).2
       = <[(@AWS_IMAGE_BUCKET Fake.usual, key) := object]> (s3 Fake.start)
       /\ u "https://compressed-images.s3.eu-west-1.amazonaws.com/"
            ++ u "00000000000040008000000000000001.gif"
          = u "https://" ++ @AWS_IMAGE_BUCKET Fake.usual ++ u ".s3."
              ++ @AWS_REGION Fake.usual ++ u ".amazonaws.com/" ++ key.
Proof.
  apply (@compress_image_stores Fake.usual Fake.quiet
           (u "http://example.com/c.gif") Fake.start
           (Ok (u "https://compressed-images.s3.eu-west-1.amazonaws.com/"
                  ++ u "00000000000040008000000000000001.gif"))).
  vm_compute. reflexivity.
Defined.

(** X17, witness: the second image of the row is not served. *)
Lemma process_row_first_failure_witness :
  @process_row Fake.usual Fake.quiet Fake.two_images Fake.start
  = (Raise (Error (u "Connection refused")),
     (@compress_image Fake.usual Fake.quiet
        (u "http://example.com/missing.jpg")
        (@compress_image Fake.usual Fake.quiet
           (u "http://example.com/a.jpg") Fake.start).2).2).
Proof.
  apply (@process_row_first_failure Fake.usual Fake.quiet Fake.two_images
           (u "http://example.com/a.jpg,http://example.com/missing.jpg")
           [u "http://example.com/a.jpg"] []
           (u "http://example.com/missing.jpg") Fake.start
           [u "https://compressed-images.s3.eu-west-1.amazonaws.com/"
              ++ u "00000000000040008000000000000001.jpeg"]
           (@compress_image Fake.usual Fake.quiet
              (u "http://example.com/a.jpg") Fake.start).2).
  - vm_compute. reflexivity.
  - vm_compute. reflexivity.
  - vm_compute. reflexivity.
  - vm_compute. reflexivity.
Defined.

(** X18, witness: the first UUID handed out. *)
Lemma uuid4_hex_canonical_witness :
  @uuid4_hex Fake.quiet Fake.start = (Ok Fake.first_id, ticked Fake.start)
  /\ List.length Fake.first_id = 32%nat.
Proof.
  apply (@uuid4_hex_canonical Fake.quiet Fake.start
           (u "00000000") (u "0000") (u "4000") (u "8000")
           (u "000000000000")).
  - vm_compute. reflexivity.
  - reflexivity.
  - reflexivity.
  - reflexivity.
  - reflexivity.
  - reflexivity.
  - vm_compute. repeat constructor; discriminate.
Defined.

(** X19, witness: the scenario run. *)
Lemma process_file_within_job_witness :
  (forall other, other <> Fake.first_id ->
     table (@process_file Fake.usual Fake.quiet Fake.first_id
              (Fake.after_upload Fake.scenario)).2 !! other
     = table (Fake.after_upload Fake.scenario) !! other)
  /\ (forall bucket key,
        bucket <> @AWS_IMAGE_BUCKET Fake.usual ->
        (bucket, key) <> @csv_key Fake.usual Fake.first_id ->
        s3 (@process_file Fake.usual Fake.quiet Fake.first_id
              (Fake.after_upload Fake.scenario)).2 !! (bucket, key)
        = s3 (Fake.after_upload Fake.scenario) !! (bucket, key))
  /\ background (@process_file Fake.usual Fake.quiet Fake.first_id
                   (Fake.after_upload Fake.scenario)).2
     = background (Fake.after_upload Fake.scenario).
Proof.
  apply (@process_file_within_job Fake.usual Fake.quiet Fake.first_id
           (Fake.after_upload Fake.scenario) (Ok tt)).
  vm_compute. reflexivity.
Defined.

(** X20, witness: the run over the image that is not served. *)
Lemma process_file_terminal_witness :
  exists w',
    @process_file Fake.usual Fake.quiet Fake.first_id
      (Fake.after_upload Fake.unreachable) = (Ok tt, w')
    /\ ((@process_body Fake.usual Fake.quiet Fake.first_id
           (Fake.after_upload Fake.unreachable)).1 = Ok tt
        /\ table w' !! Fake.first_id = Some (completed Fake.first_id)
        \/ exists e,
             (@process_body Fake.usual Fake.quiet Fake.first_id
                (Fake.after_upload Fake.unreachable)).1 = Raise e
             /\ table w' !! Fake.first_id
                = Some (@failed Fake.quiet Fake.first_id e)).
Proof.
  apply (@process_file_terminal Fake.usual Fake.quiet).
  intros t. reflexivity.
Defined.

(** X21, witness: a run in a world without any document. *)
Lemma process_file_missing_document_witness :
  exists w',
    @process_file Fake.usual Fake.quiet Fake.first_id Fake.start = (Ok tt, w')
    /\ table w' !! Fake.first_id
       = Some (@failed Fake.quiet Fake.first_id
                 (NoSuchKey (Fake.first_id ++ u ".csv")))
    /\ s3 w' = s3 Fake.start.
Proof.
  apply (@process_file_missing_document Fake.usual Fake.quiet).
  - reflexivity.
  - reflexivity.
  - vm_compute. reflexivity.
  - reflexivity.
Defined.

(** X22, witness: a run over a document of no byte. *)
Lemma process_file_no_rows_witness :
  exists w',
    @process_file Fake.usual Fake.quiet Fake.first_id (Fake.with_document [])
    = (Ok tt, w')
    /\ table w' !! Fake.first_id
       = Some (mkItem Fake.first_id
                 (u "Processing failed due to "
                    ++ default [] (tail_error (@csv_reader Fake.quiet []))
                    ++ u "!"))
    /\ s3 w' = s3 (Fake.with_document []).
Proof.
  apply (@process_file_no_rows Fake.usual Fake.quiet Fake.first_id
           (Fake.with_document []) (mkObject [] [])).
  - reflexivity.
  - reflexivity.
  - vm_compute. reflexivity.
  - vm_compute. reflexivity.
  - vm_compute. reflexivity.
  - reflexivity.
Defined.

(** X23, witness: the download after the scenario run. *)
Lemma process_file_then_download_witness :
  exists (headers : list str) (processed : list (list cell))
         (document : bytes),
    @csv_writerows Fake.quiet
      ([StrList (headers ++ [u "Output Image Urls"])] :: processed)
    = Returns document
    /\ @get_csv Fake.usual Fake.quiet Fake.first_id
         (@process_file Fake.usual Fake.quiet Fake.first_id
            (Fake.after_upload Fake.scenario)).2
       = (Ok (csv_response Fake.first_id document),
          ticked (@process_file Fake.usual Fake.quiet Fake.first_id
                    (Fake.after_upload Fake.scenario)).2).
Proof.
  apply (@process_file_then_download Fake.usual Fake.quiet Fake.first_id
           (Fake.after_upload Fake.scenario)).
  - vm_compute. reflexivity.
  - vm_compute. reflexivity.
  - vm_compute. reflexivity.
Defined.

(** X24, witness: the download of the scenario upload. *)
Lemma get_csv_file_name_witness :
  @get_csv Fake.usual Fake.quiet Fake.first_id
    (Fake.after_upload Fake.scenario)
  = (Ok (mkStreaming (file Fake.scenario) (u "text/csv")
           [(u "Content-Disposition",
             u "attachment; filename=" ++ Fake.first_id ++ u ".csv")]),
     ticked (Fake.after_upload Fake.scenario)).
Proof.
  apply (@get_csv_file_name Fake.usual Fake.quiet Fake.first_id
           (uploaded_object Fake.scenario)).
  - reflexivity.
  - vm_compute. reflexivity.
  - vm_compute. intuition discriminate.
Defined.
